(** * example_package: Calculator and DataProcessor

    A shallow embedding of [example_package/calculator.py] and
    [example_package/core/data_processor.py].

    Numbers are modelled as the interpreter has them: a Python [int] is an
    unbounded integer ([Z]), a Python [float] and a numpy [float64] are IEEE
    binary64 values (Rocq's primitive [float], specified by [SpecFloat]).
    Exceptions are values of an error type, and the calculator's history is
    threaded through its methods as explicit state. *)

From Stdlib Require Import ZArith List String Ascii Bool Lia.
From Stdlib Require Import Floats.
From stdpp Require Import gmap strings pretty.
Import ListNotations.

Local Open Scope string_scope.
Local Open Scope Z_scope.

(* ===================================================================== *)
(** * Exceptions and results *)
(* ===================================================================== *)

(** The exceptions that can leave the two classes. The source raises
    [ValueError] itself; [OverflowError] and [ZeroDivisionError] are raised
    by the interpreter's arithmetic. *)
Inductive exception : Type :=
| ValueError (msg : string)
| OverflowError (msg : string)
| ZeroDivisionError (msg : string).

(** A call either returns a value or raises. *)
Inductive result (A : Type) : Type :=
| Return (a : A)
| Raise (e : exception).

Arguments Return {A} a.
Arguments Raise {A} e.

Definition result_bind {A B : Type} (r : result A) (k : A -> result B) : result B :=
  match r with
  | Return a => k a
  | Raise e => Raise e
  end.

Definition raises {A : Type} (r : result A) : bool :=
  match r with
  | Return _ => false
  | Raise _ => true
  end.

(* ===================================================================== *)
(** * Python numbers *)
(* ===================================================================== *)

Module PyNum.

(** [Number = Union[int, float]]. *)
Inductive Number : Type :=
| PyInt (z : Z)
| PyFloat (f : float).

(** An integer seen as an (unrounded) binary float with exponent 0. *)
Definition SF_of_int (z : Z) : spec_float :=
  match z with
  | Z0 => S754_zero false
  | Zpos p => S754_finite false p 0
  | Zneg p => S754_finite true p 0
  end.

(** The binary64 value nearest to an integer (ties to even); an infinity
    when the integer is out of range. *)
Definition Z2F (z : Z) : float := SF2Prim (binary_normalize prec emax z 0 false).

(** [float(z)] for an int [z]: correctly rounded, and an [OverflowError]
    when the integer is too large for a float. *)
Definition float_of_int (z : Z) : result float :=
  let f := Z2F z in
  if is_infinity f then Raise (OverflowError "int too large to convert to float")
  else Return f.

(** The operand of a mixed or float operation, converted to a float. *)
Definition to_float (a : Number) : result float :=
  match a with
  | PyInt z => float_of_int z
  | PyFloat f => Return f
  end.

(** A binary operator that is exact on two ints and otherwise converts both
    operands to floats. *)
Definition arith (iop : Z -> Z -> Z) (fop : float -> float -> float)
    (a b : Number) : result Number :=
  match a, b with
  | PyInt x, PyInt y => Return (PyInt (iop x y))
  | _, _ =>
      result_bind (to_float a) (fun x =>
      result_bind (to_float b) (fun y =>
      Return (PyFloat (fop x y))))
  end.

(** [a + b], [a - b], [a * b]. *)
Definition py_add : Number -> Number -> result Number := arith Z.add PrimFloat.add.
Definition py_sub : Number -> Number -> result Number := arith Z.sub PrimFloat.sub.
Definition py_mul : Number -> Number -> result Number := arith Z.mul PrimFloat.mul.

(** [x / y] on two ints: the correctly rounded quotient of the exact
    integers. *)
Definition int_true_divide (x y : Z) : result float :=
  if (y =? 0)%Z then Raise (ZeroDivisionError "division by zero")
  else
    let q := SF2Prim (SFdiv prec emax (SF_of_int x) (SF_of_int y)) in
    if is_infinity q
    then Raise (OverflowError "integer division result too large for a float")
    else Return q.

(** [x / y] on two floats. *)
Definition float_true_divide (x y : float) : result float :=
  if (y =? 0)%float then Raise (ZeroDivisionError "float division by zero")
  else Return (x / y)%float.

(** [a / b]: true division, always a float. *)
Definition py_truediv (a b : Number) : result float :=
  match a, b with
  | PyInt x, PyInt y => int_true_divide x y
  | _, _ =>
      result_bind (to_float a) (fun x =>
      result_bind (to_float b) (fun y =>
      float_true_divide x y))
  end.

(** [b == 0]. *)
Definition py_eq_zero (b : Number) : bool :=
  match b with
  | PyInt z => (z =? 0)%Z
  | PyFloat f => (f =? 0)%float
  end.

(** ** [str] of a number

    [str] of an int is its decimal numeral. [str] of a float is the
    shortest decimal string that reads back as the same float, laid out in
    fixed notation when the decimal point falls within (-4, 16] and in
    exponent notation otherwise. The digits are produced by the free-format
    algorithm over exact integers: the float is [sr / ss], and
    [smp / ss], [smm / ss] are the distances to the midpoints with its
    neighbours. *)

Record scaled : Type := { sr : Z; ss : Z; smp : Z; smm : Z }.

Definition scale_start (m : positive) (e : Z) : scaled :=
  let boundary := (Z.pos m =? 2 ^ 52) && (-1074 <? e) in
  if 0 <=? e then
    if boundary
    then {| sr := Z.pos m * 2 ^ e * 4; ss := 4; smp := 2 ^ e * 2; smm := 2 ^ e |}
    else {| sr := Z.pos m * 2 ^ e * 2; ss := 2; smp := 2 ^ e; smm := 2 ^ e |}
  else
    if boundary
    then {| sr := Z.pos m * 4; ss := 2 ^ (- e) * 4; smp := 2; smm := 1 |}
    else {| sr := Z.pos m * 2; ss := 2 ^ (- e) * 2; smp := 1; smm := 1 |}.

(** Is [10 ^ k] still below (or at, when the midpoint itself rounds to the
    float) the upper midpoint? *)
Definition too_low (even : bool) (x : scaled) (k : Z) : bool :=
  let hi := if 0 <=? k then sr x + smp x else (sr x + smp x) * 10 ^ (- k) in
  let lim := if 0 <=? k then ss x * 10 ^ k else ss x in
  if even then lim <=? hi else lim <? hi.

Fixpoint find_k (fuel : nat) (even : bool) (x : scaled) (k : Z) : Z :=
  match fuel with
  | O => k
  | S fuel' => if too_low even x k then find_k fuel' even x (k + 1) else k
  end.

Definition scale_to (x : scaled) (k : Z) : scaled :=
  if 0 <=? k then {| sr := sr x; ss := ss x * 10 ^ k; smp := smp x; smm := smm x |}
  else
    let p := 10 ^ (- k) in
    {| sr := sr x * p; ss := ss x; smp := smp x * p; smm := smm x * p |}.

Fixpoint gen_digits (fuel : nat) (even : bool) (x : scaled) : list Z :=
  match fuel with
  | O => []
  | S fuel' =>
      let d := (sr x * 10) / ss x in
      let r := (sr x * 10) mod ss x in
      let mp := smp x * 10 in
      let mm := smm x * 10 in
      let tc1 := if even then r <=? mm else r <? mm in
      let tc2 := if even then ss x <=? r + mp else ss x <? r + mp in
      if tc1 then
        if tc2 then (if r * 2 <? ss x then [d] else [d + 1]) else [d]
      else
        if tc2 then [d + 1]
        else d :: gen_digits fuel' even {| sr := r; ss := ss x; smp := mp; smm := mm |}
  end.

(** The shortest digits [d1 d2 ...] and the position [k] of the decimal
    point: the float is read back from [0.d1d2... * 10 ^ k]. *)
Definition shortest (m : positive) (e : Z) : list Z * Z :=
  let even := Z.even (Z.pos m) in
  let x := scale_start m e in
  let k := find_k 700 even x (-324) in
  (gen_digits 20 even (scale_to x k), k).

Definition digit_char (d : Z) : ascii := ascii_of_nat (48 + Z.to_nat d).

Definition digits_string (ds : list Z) : string :=
  string_of_list_ascii (map digit_char ds).

Definition zeros (n : Z) : string :=
  string_of_list_ascii (repeat "0"%char (Z.to_nat n)).

Definition format_repr (ds : list Z) (decpt : Z) : string :=
  let n := Z.of_nat (length ds) in
  if (decpt <=? -4) || (16 <? decpt) then
    let x := decpt - 1 in
    let mant :=
      match ds with
      | [] => ""
      | [d] => digits_string [d]
      | d :: rest => digits_string [d] +:+ "." +:+ digits_string rest
      end in
    mant +:+ "e" +:+ (if x <? 0 then "-" else "+")
         +:+ (if Z.abs x <? 10 then "0" else "") +:+ pretty (Z.abs x)
  else if decpt <=? 0 then "0." +:+ zeros (- decpt) +:+ digits_string ds
  else if n <=? decpt then digits_string ds +:+ zeros (decpt - n) +:+ ".0"
  else digits_string (firstn (Z.to_nat decpt) ds) +:+ "."
       +:+ digits_string (skipn (Z.to_nat decpt) ds).

Definition float_repr (f : float) : string :=
  match Prim2SF f with
  | S754_nan => "nan"
  | S754_infinity s => if s then "-inf" else "inf"
  | S754_zero s => if s then "-0.0" else "0.0"
  | S754_finite s m e =>
      let '(ds, k) := shortest m e in
      (if s then "-" else "") +:+ format_repr ds k
  end.

(** [str(a)], which is what an f-string field [{a}] renders. *)
Definition py_str (a : Number) : string :=
  match a with
  | PyInt z => pretty z
  | PyFloat f => float_repr f
  end.

End PyNum.

(* ===================================================================== *)
(** * calculator.py *)
(* ===================================================================== *)

Module Calculator.
Import PyNum.

(** The instance: its only attribute is [history]. *)
Record Calculator : Type := { history : list string }.

(** A method takes the instance and gives back its outcome and the
    instance as the call leaves it. *)
Definition method (A : Type) : Type := Calculator -> result A * Calculator.

#[export] Instance method_ret : MRet method :=
  fun A (a : A) self => (Return a, self).

#[export] Instance method_bind : MBind method :=
  fun A B (k : A -> method B) (c : method A) self =>
    match c self with
    | (Return a, self') => k a self'
    | (Raise e, self') => (Raise e, self')
    end.

(** An expression of the interpreter: it reads no attribute. *)
Definition eval {A : Type} (r : result A) : method A := fun self => (r, self).

Definition raise {A : Type} (e : exception) : method A := fun self => (Raise e, self).

(** [self.history.append(entry)]. *)
Definition history_append (entry : string) : method unit :=
  fun self => (Return tt, {| history := (history self ++ [entry])%list |}).

(** [f"{a} <op> {b} = {result}"]. *)
Definition entry (op : string) (a b result : Number) : string :=
  py_str a +:+ " " +:+ op +:+ " " +:+ py_str b +:+ " = " +:+ py_str result.

(** [__init__]. *)
Definition init : Calculator := {| history := [] |}.

Definition add (a b : Number) : method Number :=
  result ← eval (py_add a b);
  history_append (entry "+" a b result);;
  mret result.

Definition subtract (a b : Number) : method Number :=
  result ← eval (py_sub a b);
  history_append (entry "-" a b result);;
  mret result.

Definition multiply (a b : Number) : method Number :=
  result ← eval (py_mul a b);
  history_append (entry "*" a b result);;
  mret result.

Definition divide (a b : Number) : method float :=
  if py_eq_zero b then raise (ValueError "Cannot divide by zero")
  else
    result ← eval (py_truediv a b);
    history_append (entry "/" a b (PyFloat result));;
    mret result.

(** [get_history]: a copy of the list. *)
Definition get_history : method (list string) :=
  fun self => (Return (history self), self).

(** [clear_history]. *)
Definition clear_history : method unit :=
  fun self => (Return tt, {| history := [] |}).

(** ** A client of the calculator

    A sequence of method calls on one instance. A caller that catches the
    exception of a failed call goes on with the instance as the failed call
    left it. *)

Inductive call : Type :=
| Add (a b : Number)
| Subtract (a b : Number)
| Multiply (a b : Number)
| Divide (a b : Number)
| GetHistory
| ClearHistory.

Inductive value : Type :=
| VNumber (n : Number)
| VHistory (h : list string)
| VNone.

Definition invoke (c : call) : method value :=
  match c with
  | Add a b => r ← add a b; mret (VNumber r)
  | Subtract a b => r ← subtract a b; mret (VNumber r)
  | Multiply a b => r ← multiply a b; mret (VNumber r)
  | Divide a b => r ← divide a b; mret (VNumber (PyFloat r))
  | GetHistory => h ← get_history; mret (VHistory h)
  | ClearHistory => clear_history;; mret VNone
  end.

Definition step (self : Calculator) (c : call) : Calculator := snd (invoke c self).

Definition run (calls : list call) (self : Calculator) : Calculator :=
  fold_left step calls self.

Definition is_arithmetic (c : call) : bool :=
  match c with
  | Add _ _ | Subtract _ _ | Multiply _ _ | Divide _ _ => true
  | GetHistory | ClearHistory => false
  end.

(** Did the call return (rather than raise) on this instance? *)
Definition succeeds (c : call) (self : Calculator) : bool :=
  negb (raises (fst (invoke c self))).

(** The line a call writes when it returns [v]. *)
Definition line (c : call) (v : value) : option string :=
  match c, v with
  | Add a b, VNumber r => Some (entry "+" a b r)
  | Subtract a b, VNumber r => Some (entry "-" a b r)
  | Multiply a b, VNumber r => Some (entry "*" a b r)
  | Divide a b, VNumber r => Some (entry "/" a b r)
  | _, _ => None
  end.

(** The line a call records on this instance, if it returns. *)
Definition recorded (c : call) (self : Calculator) : option string :=
  match fst (invoke c self) with
  | Return v => line c v
  | Raise _ => None
  end.

(** The calls made since construction or the last [clear_history], in
    call order. *)
Definition since_last_clear (calls : list call) : list call :=
  fold_left (fun made c => match c with
                           | ClearHistory => []
                           | _ => (made ++ [c])%list
                           end) calls [].

(** A successful (non-erroring) arithmetic call. What an arithmetic call
    returns does not depend on the history, so the fresh instance decides. *)
Definition successful (c : call) : bool := is_arithmetic c && succeeds c init.

End Calculator.

(* ===================================================================== *)
(** * The numpy operations the data processor calls *)
(* ===================================================================== *)

Module Numpy.
Import PyNum.

Local Open Scope float_scope.

(** A one-dimensional [float64] array. *)
Abbreviation ndarray := (list float) (only parsing).

(** A computation that may raise, together with the divisors of the array
    divisions it has executed so far, in execution order. numpy does not
    raise when a float array is divided by zero (it warns and yields
    infinities and NaNs), so the divisors are kept to state which divisions
    a call performs. *)
Definition traced (A : Type) : Type := (result A * list float)%type.

#[export] Instance traced_ret : MRet traced :=
  fun A (a : A) => (Return a, []).

#[export] Instance traced_bind : MBind traced :=
  fun A B (k : A -> traced B) (c : traced A) =>
    match c with
    | (Return a, t) => let '(r, t') := k a in (r, (t ++ t')%list)
    | (Raise e, t) => (Raise e, t)
    end.

(** A step that executes no array division. *)
Definition quiet {A : Type} (r : result A) : traced A := (r, []).

Definition outcome {A : Type} (c : traced A) : result A := fst c.
Definition divisors {A : Type} (c : traced A) : list float := snd c.

(** [np.minimum] and [np.maximum] on two scalars: a NaN accumulator is
    kept, and a NaN operand replaces the accumulator. *)
Definition minimum (a b : float) : float :=
  if (a <=? b) || is_nan a then a else b.

Definition maximum (a b : float) : float :=
  if (b <=? a) || is_nan a then a else b.

(** A reduction with no identity: it starts from the first element and
    raises on an empty array. *)
Definition reduce (name : string) (f : float -> float -> float) (arr : ndarray)
  : result float :=
  match arr with
  | [] => Raise (ValueError ("zero-size array to reduction operation " +:+ name
                             +:+ " which has no identity"))
  | x :: rest => Return (fold_left f rest x)
  end.

(** [np.min], [np.max]. *)
Definition np_min : ndarray -> result float := reduce "minimum" minimum.
Definition np_max : ndarray -> result float := reduce "maximum" maximum.

(** [np.sum]: the elements accumulated from zero, in order. *)
Definition np_sum (arr : ndarray) : float := fold_left PrimFloat.add arr 0.

(** [np.mean]: the sum divided by the number of elements. *)
Definition np_mean (arr : ndarray) : float :=
  np_sum arr / Z2F (Z.of_nat (length arr)).

(** [arr - c], [arr ** 2], [np.abs], [np.sqrt], [np.zeros_like],
    [arr < c]. *)
Definition np_subtract (arr : ndarray) (c : float) : ndarray :=
  map (fun x => x - c) arr.
Definition np_square (arr : ndarray) : ndarray := map (fun x => x * x) arr.
Definition np_abs (arr : ndarray) : ndarray := map abs arr.
Definition np_sqrt (arr : ndarray) : ndarray := map sqrt arr.
Definition np_zeros_like (arr : ndarray) : ndarray := map (fun _ => 0) arr.
Definition np_less (arr : ndarray) (c : float) : list bool :=
  map (fun x => x <? c) arr.

(** [np.std] with its default [ddof=0]: the square root of the mean of the
    squared deviations from the mean. *)
Definition np_std (arr : ndarray) : float :=
  sqrt (np_mean (np_square (np_subtract arr (np_mean arr)))).

(** [arr / d] for a scalar [d]; the divisor is recorded. *)
Definition np_true_divide (arr : ndarray) (d : float) : traced ndarray :=
  (Return (map (fun x => x / d) arr), [d]).

(** [arr[mask]]: the elements at the positions where the mask is true. *)
Fixpoint np_compress (mask : list bool) (arr : ndarray) : ndarray :=
  match mask, arr with
  | b :: mask', x :: arr' =>
      if b then x :: np_compress mask' arr' else np_compress mask' arr'
  | _, _ => []
  end.

End Numpy.

(* ===================================================================== *)
(** * core/data_processor.py *)
(* ===================================================================== *)

(** The methods take [data: list[float]], modelled as a list of binary64
    values, NaN and the infinities included; [np.array] and [.tolist()] are
    then the identity. The keyword arguments that [process] accepts and
    never reads are left out. *)

Module DataProcessor.
Import PyNum Numpy.

Local Open Scope float_scope.

(** The instance: its only attribute is the [normalize] flag. *)
Record DataProcessor : Type := { normalize : bool }.

(** [__init__], with its default. *)
Definition init (normalize : bool) : DataProcessor := {| normalize := normalize |}.
Definition default : DataProcessor := init false.

(** The two [ValueError]s the class raises. *)
Definition EmptyInput : exception := ValueError "Data cannot be empty".
Definition InvalidOperation (operation : string) : exception :=
  ValueError ("Invalid operation: " +:+ operation).

(** [np.array(data, dtype=float)] and [.tolist()] on a list of floats. *)
Definition np_array (data : list float) : ndarray := data.
Definition tolist (arr : ndarray) : list float := arr.

Definition _normalize (arr : ndarray) : traced ndarray :=
  min_val ← quiet (np_min arr);
  max_val ← quiet (np_max arr);
  if max_val =? min_val then mret (np_zeros_like arr)
  else np_true_divide (np_subtract arr min_val) (max_val - min_val).

Definition process (self : DataProcessor) (data : list float) (operation : string)
  : traced (list float) :=
  match data with
  | [] => quiet (Raise EmptyInput)
  | _ =>
      let arr := np_array data in
      result ←
        (if String.eqb operation "identity" then mret arr
         else if String.eqb operation "square" then mret (np_square arr)
         else if String.eqb operation "sqrt" then mret (np_sqrt (np_abs arr))
         else if String.eqb operation "normalize" then _normalize arr
         else quiet (Raise (InvalidOperation operation)));
      result ←
        (if normalize self && negb (String.eqb operation "normalize")
         then _normalize result
         else mret result);
      mret (tolist result)
  end.

Definition statistics (self : DataProcessor) (data : list float)
  : result (gmap string float) :=
  match data with
  | [] => Raise EmptyInput
  | _ =>
      let arr := np_array data in
      result_bind (np_min arr) (fun min_val =>
      result_bind (np_max arr) (fun max_val =>
      Return (<["mean" := np_mean arr]>
             (<["std" := np_std arr]>
             (<["min" := min_val]>
             (<["max" := max_val]> ∅))))))
  end.

Definition filter_outliers (self : DataProcessor) (data : list float)
    (threshold : float) : traced (list float) :=
  match data with
  | [] => quiet (Raise EmptyInput)
  | _ =>
      if (length data <? 3)%nat then mret data
      else
        let arr := np_array data in
        let mean := np_mean arr in
        let std := np_std arr in
        if std =? 0 then mret data
        else
          quotient ← np_true_divide (np_subtract arr mean) std;
          let z_scores := np_abs quotient in
          let filtered := np_compress (np_less z_scores threshold) arr in
          mret (tolist filtered)
  end.

(** ** The vocabulary of the specification *)

(** The operation names [process] recognizes. *)
Definition recognized : list string := ["identity"; "square"; "sqrt"; "normalize"].

(** The elementwise operations, which are not [normalize]. *)
Definition elementwise : list string := ["identity"; "square"; "sqrt"].

(** The arithmetic mean: the sum divided by the number [N] of elements. *)
Definition arithmetic_mean (data : list float) : float :=
  fold_left PrimFloat.add data 0 / Z2F (Z.of_nat (length data)).


(** [m] is the minimum of [data]: one of its elements, below all of them;
    a NaN among the data makes the minimum a NaN. *)
Definition is_minimum (m : float) (data : list float) : Prop :=
  In m data /\
  (Forall (fun x => is_nan x = false) data -> Forall (fun x => (m <=? x) = true) data) /\
  (Exists (fun x => is_nan x = true) data -> is_nan m = true).

Definition is_maximum (m : float) (data : list float) : Prop :=
  In m data /\
  (Forall (fun x => is_nan x = false) data -> Forall (fun x => (x <=? m) = true) data) /\
  (Exists (fun x => is_nan x = true) data -> is_nan m = true).

(** The value of [result] in [process] when the chain of tests on the
    operation name is left, before the post-processing. *)
Definition requested (operation : string) (arr : ndarray) : traced ndarray :=
  if String.eqb operation "identity" then mret arr
  else if String.eqb operation "square" then mret (np_square arr)
  else if String.eqb operation "sqrt" then mret (np_sqrt (np_abs arr))
  else if String.eqb operation "normalize" then _normalize arr
  else quiet (Raise (InvalidOperation operation)).

(** The z-score of [x] in [data]. *)
Definition z_score (data : list float) (x : float) : float :=
  abs (x - np_mean data) / np_std data.

End DataProcessor.

(* ===================================================================== *)
(** * More vocabulary for the calculator's calls *)
(* ===================================================================== *)

Module CallKinds.
Import PyNum Calculator.

Definition is_int (a : Number) : bool :=
  match a with
  | PyInt _ => true
  | PyFloat _ => false
  end.





End CallKinds.

(* ===================================================================== *)
(** * calculator.py with its list objects

    [self.history] is bound to a list object that [append] and [clear]
    change in place and that [copy] duplicates. Here the list objects live
    in a store, so that a reference handed to a caller and the reference
    the instance holds can be told apart. The methods are those of
    [Calculator] above, statement by statement. *)
(* ===================================================================== *)

Module CalculatorObjects.
Import PyNum.

Local Open Scope list_scope.

(** The identity of a list object. *)
Abbreviation ref := nat (only parsing).

(** The list objects that exist, each with its contents. *)
Abbreviation store := (gmap nat (list string)) (only parsing).

(** The instance: its attribute [history] is bound to a list object. *)
Record Calculator : Type := { history : ref }.

(** A statement transforms the store and gives an outcome. *)
Definition action (A : Type) : Type := store -> result A * store.

#[export] Instance action_ret : MRet action :=
  fun A (a : A) s => (Return a, s).

#[export] Instance action_bind : MBind action :=
  fun A B (k : A -> action B) (c : action A) s =>
    match c s with
    | (Return a, s') => k a s'
    | (Raise e, s') => (Raise e, s')
    end.

Definition eval {A : Type} (r : result A) : action A := fun s => (r, s).

Definition raise {A : Type} (e : exception) : action A := fun s => (Raise e, s).

(** A new list object with the given contents. *)
Definition list_new (contents : list string) : action ref :=
  fun s => let r := fresh (dom s) in (Return r, <[r := contents]> s).

(** The contents of a list object. *)
Definition contents (r : ref) (s : store) : list string := default [] (s !! r).

(** [l.append(x)], [l.copy()], [l.clear()]. *)
Definition list_append (r : ref) (x : string) : action unit :=
  fun s => (Return tt, alter (fun l => l ++ [x]) r s).

Definition list_copy (r : ref) : action ref :=
  fun s => list_new (contents r s) s.

Definition list_clear (r : ref) : action unit :=
  fun s => (Return tt, alter (fun _ => []) r s).

(** [__init__]: [self.history = []]. *)
Definition init : action Calculator :=
  r ← list_new []; mret {| history := r |}.

Definition add (self : Calculator) (a b : Number) : action Number :=
  result ← eval (py_add a b);
  list_append (history self) (Calculator.entry "+" a b result);;
  mret result.

Definition subtract (self : Calculator) (a b : Number) : action Number :=
  result ← eval (py_sub a b);
  list_append (history self) (Calculator.entry "-" a b result);;
  mret result.

Definition multiply (self : Calculator) (a b : Number) : action Number :=
  result ← eval (py_mul a b);
  list_append (history self) (Calculator.entry "*" a b result);;
  mret result.

Definition divide (self : Calculator) (a b : Number) : action float :=
  if py_eq_zero b then raise (ValueError "Cannot divide by zero")
  else
    result ← eval (py_truediv a b);
    list_append (history self) (Calculator.entry "/" a b (PyFloat result));;
    mret result.

(** [get_history]: [return self.history.copy()]. *)
Definition get_history (self : Calculator) : action ref :=
  list_copy (history self).

(** [clear_history]: [self.history.clear()]. *)
Definition clear_history (self : Calculator) : action unit :=
  list_clear (history self).

(** One call of a client, and a sequence of calls. *)
Definition invoke (self : Calculator) (c : Calculator.call) : store -> store :=
  fun s =>
    match c with
    | Calculator.Add a b => snd (add self a b s)
    | Calculator.Subtract a b => snd (subtract self a b s)
    | Calculator.Multiply a b => snd (multiply self a b s)
    | Calculator.Divide a b => snd (divide self a b s)
    | Calculator.GetHistory => snd (get_history self s)
    | Calculator.ClearHistory => snd (clear_history self s)
    end.

Definition run (self : Calculator) (calls : list Calculator.call) (s : store) : store :=
  fold_left (fun s c => invoke self c s) calls s.

End CalculatorObjects.

(* ===================================================================== *)
(** * Facts about binary64 arithmetic *)
(* ===================================================================== *)

Module FloatFacts.
Import PyNum.

Local Open Scope float_scope.

(** ** Comparison of specification floats *)

Lemma SFcompare_refl (x : spec_float) :
  x <> S754_nan -> SFcompare x x = Some Eq.
Proof.
  destruct x as [s|s| |s m e]; simpl; try congruence; intros _.
  - destruct s; reflexivity.
  - rewrite Z.compare_refl, Pos.compare_cont_refl. destruct s; reflexivity.
Qed.

Lemma SFleb_not_nan (x y : spec_float) :
  SFleb x y = true -> x <> S754_nan /\ y <> S754_nan.
Proof.
  unfold SFleb. destruct x, y; simpl; split; congruence.
Qed.

Lemma SFeqb_not_nan (x y : spec_float) :
  SFeqb x y = true -> x <> S754_nan /\ y <> S754_nan.
Proof.
  unfold SFeqb. destruct x, y; simpl; split; congruence.
Qed.

Lemma SFeqb_SFleb (x y : spec_float) : SFeqb x y = true -> SFleb x y = true.
Proof.
  unfold SFeqb, SFleb. destruct (SFcompare x y) as [[]|]; congruence.
Qed.

(** Floats that compare equal are the same float, or are two zeros. *)
Lemma SFeqb_true (x y : spec_float) :
  SFeqb x y = true ->
  x = y \/ exists s s', x = S754_zero s /\ y = S754_zero s'.
Proof.
  unfold SFeqb.
  destruct x as [s|s| |s m e], y as [s'|s'| |s' m' e']; simpl;
    try destruct s; try destruct s'; try discriminate; eauto.
  - destruct (Z.compare_spec e e'); try discriminate.
    rewrite Pos.compare_cont_spec; simpl.
    destruct (Pos.compare_spec m m'); try discriminate.
    intros _. left. congruence.
  - destruct (Z.compare_spec e e'); try discriminate.
    rewrite Pos.compare_cont_spec; simpl.
    destruct (Pos.compare_spec m m'); try discriminate.
    intros _. left. congruence.
Qed.

Lemma SFeqb_sym (x y : spec_float) : SFeqb x y = true -> SFeqb y x = true.
Proof.
  intros H. assert (Hn := SFeqb_not_nan _ _ H).
  destruct (SFeqb_true _ _ H) as [->|(s & s' & -> & ->)]; [assumption|reflexivity].
Qed.

Ltac sf_cases :=
  repeat match goal with
         | |- context [Z.compare ?a ?b] => destruct (Z.compare_spec a b)
         | |- context [Pos.compare_cont Eq ?a ?b] =>
             rewrite (Pos.compare_cont_spec a b Eq); simpl
         | |- context [Pos.compare ?a ?b] => destruct (Pos.compare_spec a b)
         end;
  simpl; try discriminate; try reflexivity; try lia.

Lemma SFleb_trans (x y z : spec_float) :
  SFleb x y = true -> SFleb y z = true -> SFleb x z = true.
Proof.
  unfold SFleb.
  destruct x as [[]|[]| |[] m1 e1], y as [[]|[]| |[] m2 e2], z as [[]|[]| |[] m3 e3];
    simpl; try discriminate; try reflexivity; sf_cases.
Qed.

Lemma SFleb_total (x y : spec_float) :
  x <> S754_nan -> y <> S754_nan -> SFleb x y = true \/ SFleb y x = true.
Proof.
  unfold SFleb.
  destruct x as [[]|[]| |[] m1 e1], y as [[]|[]| |[] m2 e2];
    simpl; try congruence; intros _ _; auto; sf_cases; auto.
Qed.

Lemma SFleb_antisym (x y : spec_float) :
  SFleb x y = true -> SFleb y x = true -> SFeqb x y = true.
Proof.
  unfold SFleb, SFeqb.
  destruct x as [[]|[]| |[] m1 e1], y as [[]|[]| |[] m2 e2];
    simpl; try discriminate; try reflexivity; sf_cases.
Qed.

(** ** Rounding *)

Section Rounding.
Variables prec emax : Z.

Lemma shr_1_nonneg (mrs : shr_record) :
  (0 <= shr_m mrs)%Z -> (0 <= shr_m (shr_1 mrs))%Z.
Proof.
  destruct mrs as [m r s]. simpl.
  destruct m as [|[p|p|]|p]; simpl; lia.
Qed.

Lemma iter_pos_shr_1_nonneg (p : positive) (mrs : shr_record) :
  (0 <= shr_m mrs)%Z -> (0 <= shr_m (SpecFloat.iter_pos shr_1 p mrs))%Z.
Proof.
  revert mrs. induction p as [p IH|p IH|]; intros mrs H; simpl.
  - apply IH, IH, shr_1_nonneg, H.
  - apply IH, IH, H.
  - apply shr_1_nonneg, H.
Qed.

Lemma shr_fexp_nonneg (m e : Z) (l : location) :
  (0 <= m)%Z -> (0 <= shr_m (fst (shr_fexp prec emax m e l)))%Z.
Proof.
  intros H. unfold shr_fexp, shr.
  assert (H0 : (0 <= shr_m (shr_record_of_loc m l))%Z)
    by (destruct l as [|[]]; simpl; exact H).
  destruct (fexp prec emax (Zdigits2 m + e) - e)%Z; simpl; try exact H0.
  apply iter_pos_shr_1_nonneg, H0.
Qed.

Lemma round_nearest_even_nonneg (m : Z) (l : location) :
  (0 <= m)%Z -> (0 <= round_nearest_even m l)%Z.
Proof.
  intros H. destruct l as [|[]]; simpl; try lia.
  destruct (Z.even m); lia.
Qed.

(** Rounding a non-negative mantissa never gives a NaN. *)
Lemma binary_round_aux_not_nan (s : bool) (m e : Z) (l : location) :
  (0 <= m)%Z -> binary_round_aux prec emax s m e l <> S754_nan.
Proof.
  intros H. unfold binary_round_aux.
  pose proof (shr_fexp_nonneg m e l H) as H1.
  destruct (shr_fexp prec emax m e l) as [mrs' e']. simpl in H1.
  pose proof (shr_fexp_nonneg _ e' loc_Exact
                (round_nearest_even_nonneg _ (loc_of_shr_record mrs') H1)) as H2.
  destruct (shr_fexp prec emax _ e' loc_Exact) as [mrs'' e'']. simpl in H2.
  destruct (shr_m mrs'') as [|p|p]; try lia; try discriminate.
  destruct (e'' <=? emax - prec)%Z; discriminate.
Qed.

(** The sign given to the rounding is the sign of its result. *)
Lemma binary_round_aux_abs (s : bool) (m e : Z) (l : location) :
  SFabs (binary_round_aux prec emax s m e l) = binary_round_aux prec emax false m e l.
Proof.
  unfold binary_round_aux.
  destruct (shr_fexp prec emax m e l) as [mrs' e'].
  destruct (shr_fexp prec emax _ e' loc_Exact) as [mrs'' e''].
  destruct (shr_m mrs'') as [|p|p]; try reflexivity.
  destruct (e'' <=? emax - prec)%Z; reflexivity.
Qed.

Lemma SFabs_idem (x : spec_float) : SFabs (SFabs x) = SFabs x.
Proof. destruct x; reflexivity. Qed.

Lemma SFdiv_abs (x y : spec_float) :
  SFabs (SFdiv prec emax x y) = SFdiv prec emax (SFabs x) (SFabs y).
Proof.
  destruct x as [s|s| |s m e], y as [s'|s'| |s' m' e']; simpl; try reflexivity.
  destruct (SFdiv_core_binary prec emax (Z.pos m) e (Z.pos m') e') as [[mz ez] lz].
  apply binary_round_aux_abs.
Qed.

Lemma SFsqrt_abs (x : spec_float) :
  SFeqb (SFsqrt prec emax x) (S754_zero false) = false ->
  SFabs (SFsqrt prec emax x) = SFsqrt prec emax x.
Proof.
  destruct x as [s|s| |s m e]; simpl; try discriminate; try reflexivity.
  - destruct s; reflexivity.
  - destruct s; try reflexivity. intros _.
    destruct (SFsqrt_core_binary prec emax (Z.pos m) e) as [[mz ez] lz].
    apply binary_round_aux_abs.
Qed.

Lemma SFmul_self_not_nan (x : spec_float) :
  x <> S754_nan -> SFmul prec emax x x <> S754_nan.
Proof.
  destruct x as [s|s| |s m e]; simpl; try congruence.
  intros _. apply binary_round_aux_not_nan. lia.
Qed.

Lemma SFsqrt_abs_not_nan (x : spec_float) :
  x <> S754_nan -> SFsqrt prec emax (SFabs x) <> S754_nan.
Proof.
  destruct x as [s|s| |s m e]; simpl; try congruence.
  intros _. unfold SFsqrt_core_binary.
  set (m' := match (e - 2 * _)%Z with Z0 => _ | Z.pos _ => _ | Z.neg _ => _ end).
  pose proof (Z.sqrtrem_spec m') as Hs.
  destruct (Z.sqrtrem m') as [q r].
  apply binary_round_aux_not_nan.
  assert (0 <= m')%Z.
  { subst m'. destruct (e - 2 * _)%Z; try lia. apply Z.shiftl_nonneg. lia. }
  specialize (Hs ltac:(assumption)). cbv zeta in Hs. nia.
Qed.

End Rounding.

(** ** Digits, shifts and the validity of rounded results *)

Local Open Scope Z_scope.

Lemma digits2_pos_size (p : positive) : digits2_pos p = Pos.size p.
Proof. induction p; simpl; congruence. Qed.

Lemma Zdigits2_log2 (m : Z) : 0 < m -> Zdigits2 m = Z.log2 m + 1.
Proof.
  destruct m as [|p|p]; try lia. intros _. simpl. rewrite digits2_pos_size.
  destruct p; simpl; lia.
Qed.

Lemma Zdigits2_nonneg (m : Z) : 0 <= Zdigits2 m.
Proof. destruct m; simpl; lia. Qed.

Lemma Zdigits2_pos (m : Z) : 0 < m -> 0 < Zdigits2 m.
Proof. destruct m; simpl; lia. Qed.

Lemma shiftr_digits (m n : Z) :
  0 < m -> 0 <= n -> n < Zdigits2 m ->
  0 < Z.shiftr m n /\ Zdigits2 (Z.shiftr m n) = Zdigits2 m - n.
Proof.
  intros Hm Hn Hlt. rewrite (Zdigits2_log2 m Hm) in *.
  assert (Hpos : 0 < Z.shiftr m n).
  { pose proof (Z.shiftr_nonneg m n) as H1.
    assert (Z.shiftr m n <> 0).
    { rewrite Z.shiftr_eq_0_iff. lia. }
    lia. }
  split; [exact Hpos|].
  rewrite (Zdigits2_log2 _ Hpos), Z.log2_shiftr by exact Hm. lia.
Qed.

Lemma shiftr_small (m n : Z) : 0 < m -> Zdigits2 m <= n -> Z.shiftr m n = 0.
Proof.
  intros Hm Hle. rewrite (Zdigits2_log2 m Hm) in Hle.
  apply Z.shiftr_eq_0_iff. right. lia.
Qed.

Lemma shr_1_div2 (mrs : shr_record) :
  0 <= shr_m mrs -> shr_m (shr_1 mrs) = Z.shiftr (shr_m mrs) 1.
Proof.
  destruct mrs as [m r s]. simpl. intros H.
  rewrite <- Z.div2_spec. destruct m as [|[p|p|]|p]; simpl; try reflexivity; lia.
Qed.

Lemma iter_pos_shr_1_shiftr (p : positive) (mrs : shr_record) :
  0 <= shr_m mrs ->
  shr_m (SpecFloat.iter_pos shr_1 p mrs) = Z.shiftr (shr_m mrs) (Z.pos p).
Proof.
  revert mrs. induction p as [p IH|p IH|]; intros mrs H; simpl.
  - rewrite IH by (apply iter_pos_shr_1_nonneg, shr_1_nonneg, H).
    rewrite IH by (apply shr_1_nonneg, H).
    rewrite shr_1_div2 by exact H.
    rewrite !Z.shiftr_shiftr by lia. f_equal. lia.
  - rewrite IH by (apply iter_pos_shr_1_nonneg, H).
    rewrite IH by exact H.
    rewrite !Z.shiftr_shiftr by lia. f_equal. lia.
  - apply shr_1_div2, H.
Qed.

Lemma iter_xO_value (p d : positive) : Z.pos (Pos.iter xO p d) = Z.pos p * 2 ^ Z.pos d.
Proof.
  induction d as [|d IH] using Pos.peano_ind.
  - simpl. lia.
  - rewrite Pos.iter_succ, Pos2Z.inj_xO, IH, Pos2Z.inj_succ, Z.pow_succ_r by lia. lia.
Qed.

Lemma shl_align_value (m : positive) (e e' : Z) :
  let '(m', e'') := shl_align m e e' in
  (e' < e -> Z.pos m' = Z.pos m * 2 ^ (e - e') /\ e'' = e') /\
  (e <= e' -> m' = m /\ e'' = e).
Proof.
  unfold shl_align. destruct (e' - e) as [|d|d] eqn:E; split; try lia; intros H.
  split; [|reflexivity]. rewrite iter_xO_value. f_equal. f_equal. lia.
Qed.

Lemma Zdigits2_mul_pow2 (m k : Z) :
  0 < m -> 0 <= k -> Zdigits2 (m * 2 ^ k) = Zdigits2 m + k.
Proof.
  intros Hm Hk. assert (0 < 2 ^ k) by (apply Z.pow_pos_nonneg; lia).
  rewrite !Zdigits2_log2 by nia. rewrite Z.log2_mul_pow2 by lia. lia.
Qed.

Lemma shr_record_of_loc_m (m : Z) (l : location) : shr_m (shr_record_of_loc m l) = m.
Proof. destruct l as [|[]]; reflexivity. Qed.

Lemma round_nearest_even_cases (m : Z) (l : location) :
  round_nearest_even m l = m \/ round_nearest_even m l = m + 1.
Proof. destruct l as [|[]]; simpl; auto. destruct (Z.even m); auto. Qed.

Lemma Zdigits2_succ (m : Z) :
  0 < m -> Zdigits2 (m + 1) = Zdigits2 m \/ Zdigits2 (m + 1) = Zdigits2 m + 1.
Proof.
  intros Hm. rewrite !Zdigits2_log2 by lia.
  pose proof (Z.log2_succ_or m) as H. unfold Z.succ in H. lia.
Qed.

Section Valid.
Variables prec emax : Z.
Hypothesis Hprec : 0 < prec.

Local Abbreviation fexp := (fexp prec emax).

(** The mantissa and exponent after [shr_fexp]. *)
Lemma shr_fexp_spec (m e : Z) (l : location) :
  0 <= m ->
  let n := fexp (Zdigits2 m + e) - e in
  let '(mrs, e') := shr_fexp prec emax m e l in
  (n <= 0 -> shr_m mrs = m /\ e' = e) /\
  (0 < n -> shr_m mrs = Z.shiftr m n /\ e' = e + n).
Proof.
  intros Hm n. unfold shr_fexp, shr. fold n.
  destruct n as [|p|p] eqn:E; split; try lia; intros _.
  - split; [apply shr_record_of_loc_m | reflexivity].
  - rewrite iter_pos_shr_1_shiftr by (rewrite shr_record_of_loc_m; exact Hm).
    rewrite shr_record_of_loc_m. split; reflexivity.
  - split; [apply shr_record_of_loc_m | reflexivity].
Qed.

(** Rounding a positive mantissa that is not below the smallest subnormal
    and is given with enough digits yields a valid non-zero float. *)
Lemma binary_round_aux_finite (s : bool) (m e : Z) (l : location) :
  0 < m ->
  e <= fexp (Zdigits2 m + e) -> fexp (Zdigits2 m + e) < Zdigits2 m + e ->
  binary_round_aux prec emax s m e l = S754_infinity s \/
  exists m' e', binary_round_aux prec emax s m e l = S754_finite s m' e' /\
                bounded prec emax m' e' = true.
Proof.
  intros Hm He HD. unfold binary_round_aux.
  pose proof (shr_fexp_spec m e l ltac:(lia)) as H1. cbv zeta in H1.
  destruct (shr_fexp prec emax m e l) as [mrs1 e1].
  set (D := Zdigits2 m + e) in *.
  assert (Hm1 : 0 < shr_m mrs1 /\ Zdigits2 (shr_m mrs1) + e1 = D /\ e1 = fexp D).
  { destruct H1 as [H1a H1b].
    destruct (Z.eq_dec (fexp D - e) 0) as [E|E].
    - destruct (H1a ltac:(lia)) as [-> ->]. repeat split; try lia.
    - destruct (H1b ltac:(lia)) as [-> ->].
      destruct (shiftr_digits m (fexp D - e) Hm ltac:(lia) ltac:(lia)) as [Hp Hd].
      rewrite Hd. repeat split; lia. }
  destruct Hm1 as (Hm1 & Hd1 & He1).
  set (m2 := round_nearest_even (shr_m mrs1) (loc_of_shr_record mrs1)).
  assert (Hm2 : 0 < m2 /\ (Zdigits2 m2 = Zdigits2 (shr_m mrs1) \/
                           Zdigits2 m2 = Zdigits2 (shr_m mrs1) + 1)).
  { unfold m2. destruct (round_nearest_even_cases (shr_m mrs1) (loc_of_shr_record mrs1))
      as [-> | ->]; [split; [lia|auto] | split; [lia | apply Zdigits2_succ, Hm1]]. }
  destruct Hm2 as (Hm2 & Hd2).
  pose proof (shr_fexp_spec m2 e1 loc_Exact ltac:(lia)) as H2. cbv zeta in H2.
  destruct (shr_fexp prec emax m2 e1 loc_Exact) as [mrs3 e3].
  assert (H3 : 0 < shr_m mrs3 /\ fexp (Zdigits2 (shr_m mrs3) + e3) = e3).
  { destruct H2 as [H2a H2b].
    assert (Hn : fexp (Zdigits2 m2 + e1) - e1 = 0 \/ fexp (Zdigits2 m2 + e1) - e1 = 1).
    { unfold SpecFloat.fexp in *. lia. }
    destruct Hn as [Hn|Hn].
    - destruct (H2a ltac:(lia)) as [-> ->]. split; lia.
    - destruct (H2b ltac:(lia)) as [-> ->]. rewrite Hn.
      assert (Hdp := Zdigits2_pos _ Hm1).
      assert (Hlt : 1 < Zdigits2 m2) by (unfold SpecFloat.fexp in *; lia).
      destruct (shiftr_digits m2 1 Hm2 ltac:(lia) Hlt) as [Hp Hd].
      rewrite Hd. split; [exact Hp|]. unfold SpecFloat.fexp in *. lia. }
  destruct H3 as (Hm3 & Hc).
  destruct (shr_m mrs3) as [|m3|m3] eqn:E3; try lia.
  destruct (e3 <=? emax - prec) eqn:Ee; [right|left; reflexivity].
  exists m3, e3. split; [reflexivity|].
  unfold bounded, canonical_mantissa. rewrite Ee, andb_true_r.
  apply Z.eqb_eq. exact Hc.
Qed.

(** Rounding a positive integer mantissa above the smallest subnormal. *)
Lemma binary_round_finite (s : bool) (m : positive) (e : Z) :
  fexp (Zdigits2 (Z.pos m) + e) < Zdigits2 (Z.pos m) + e ->
  binary_round prec emax s m e = S754_infinity s \/
  exists m' e', binary_round prec emax s m e = S754_finite s m' e' /\
                bounded prec emax m' e' = true.
Proof.
  intros HD. unfold binary_round.
  pose proof (shl_align_value m e (fexp (Z.pos (digits2_pos m) + e))) as H.
  destruct (shl_align m e (fexp (Z.pos (digits2_pos m) + e))) as [mz ez].
  change (Z.pos (digits2_pos m)) with (Zdigits2 (Z.pos m)) in *.
  destruct H as [Ha Hb].
  assert (HD' : Zdigits2 (Z.pos mz) + ez = Zdigits2 (Z.pos m) + e /\
                ez <= fexp (Zdigits2 (Z.pos m) + e)).
  { destruct (Z.lt_ge_cases (fexp (Zdigits2 (Z.pos m) + e)) e) as [Hlt|Hge].
    - destruct (Ha Hlt) as [-> ->]. rewrite Zdigits2_mul_pow2 by lia. lia.
    - destruct (Hb Hge) as [-> ->]. lia. }
  destruct HD' as [HD1 HD2].
  apply binary_round_aux_finite; rewrite ?HD1; lia.
Qed.

Lemma binary_normalize_finite (m e : Z) (szero : bool) :
  m <> 0 -> SpecFloat.emin prec emax <= e ->
  exists s, binary_normalize prec emax m e szero = S754_infinity s \/
            exists m' e', binary_normalize prec emax m e szero = S754_finite s m' e' /\
                          bounded prec emax m' e' = true.
Proof.
  intros Hm He.
  assert (HD : forall p, fexp (Zdigits2 (Z.pos p) + e) < Zdigits2 (Z.pos p) + e).
  { intros p. pose proof (Zdigits2_pos (Z.pos p) ltac:(lia)).
    unfold SpecFloat.fexp. lia. }
  destruct m as [|p|p]; [congruence| |]; simpl.
  - exists false. apply binary_round_finite, HD.
  - exists true. apply binary_round_finite, HD.
Qed.

End Valid.

Local Close Scope Z_scope.
Local Open Scope float_scope.

(** ** Primitive floats through their specification *)

Lemma Prim2SF_inj (x y : float) : Prim2SF x = Prim2SF y -> x = y.
Proof.
  intros H. rewrite <- (SF2Prim_Prim2SF x), <- (SF2Prim_Prim2SF y), H. reflexivity.
Qed.

Lemma Prim2SF_zero : Prim2SF 0 = S754_zero false.
Proof. reflexivity. Qed.

Lemma is_nan_false (x : float) : is_nan x = false <-> Prim2SF x <> S754_nan.
Proof.
  unfold is_nan. rewrite FloatAxioms.eqb_spec, negb_false_iff. split.
  - intros H. apply (SFeqb_not_nan _ _ H).
  - intros H. unfold SFeqb. rewrite SFcompare_refl by exact H. reflexivity.
Qed.

Lemma is_nan_true (x : float) : is_nan x = true <-> Prim2SF x = S754_nan.
Proof.
  split; intros H.
  - destruct (Prim2SF x) eqn:E; try reflexivity;
      assert (Hf : is_nan x = false) by (apply is_nan_false; congruence); congruence.
  - destruct (is_nan x) eqn:E; try reflexivity.
    apply is_nan_false in E. contradiction.
Qed.

Lemma eqb_not_nan (x y : float) :
  (x =? y) = true -> is_nan x = false /\ is_nan y = false.
Proof.
  rewrite FloatAxioms.eqb_spec, !is_nan_false. apply SFeqb_not_nan.
Qed.

Lemma leb_not_nan (x y : float) :
  (x <=? y) = true -> is_nan x = false /\ is_nan y = false.
Proof.
  rewrite leb_spec, !is_nan_false. apply SFleb_not_nan.
Qed.

Lemma eqb_refl (x : float) : is_nan x = false -> (x =? x) = true.
Proof. unfold is_nan. rewrite negb_false_iff. trivial. Qed.

Lemma eqb_sym (x y : float) : (x =? y) = true -> (y =? x) = true.
Proof. rewrite !FloatAxioms.eqb_spec. apply SFeqb_sym. Qed.

Lemma eqb_leb (x y : float) : (x =? y) = true -> (x <=? y) = true.
Proof. rewrite FloatAxioms.eqb_spec, leb_spec. apply SFeqb_SFleb. Qed.

Lemma leb_trans (x y z : float) :
  (x <=? y) = true -> (y <=? z) = true -> (x <=? z) = true.
Proof. rewrite !leb_spec. apply SFleb_trans. Qed.

Lemma leb_antisym (x y : float) :
  (x <=? y) = true -> (y <=? x) = true -> (x =? y) = true.
Proof. rewrite !leb_spec, FloatAxioms.eqb_spec. apply SFleb_antisym. Qed.

Lemma leb_total (x y : float) :
  is_nan x = false -> is_nan y = false -> (x <=? y) = true \/ (y <=? x) = true.
Proof. rewrite !leb_spec, !is_nan_false. apply SFleb_total. Qed.

Lemma leb_refl (x : float) : is_nan x = false -> (x <=? x) = true.
Proof. intros H. apply eqb_leb, eqb_refl, H. Qed.

Lemma eqb_trans (x y z : float) :
  (x =? y) = true -> (y =? z) = true -> (x =? z) = true.
Proof.
  intros H1 H2. apply leb_antisym.
  - apply leb_trans with y; apply eqb_leb; assumption.
  - apply leb_trans with y; apply eqb_leb, eqb_sym; assumption.
Qed.

(** Floats that compare equal are the same float, or are two zeros. *)
Lemma eqb_true (x y : float) :
  (x =? y) = true ->
  x = y \/ exists s s', Prim2SF x = S754_zero s /\ Prim2SF y = S754_zero s'.
Proof.
  rewrite FloatAxioms.eqb_spec. intros H.
  destruct (SFeqb_true _ _ H) as [E|E]; [left; apply Prim2SF_inj, E | right; exact E].
Qed.

(** Squaring keeps a number a number, and respects [==]. *)
Lemma square_not_nan (x : float) : is_nan x = false -> is_nan (x * x) = false.
Proof.
  rewrite !is_nan_false, mul_spec. apply SFmul_self_not_nan.
Qed.

Lemma square_eqb (x y : float) : (x =? y) = true -> (x * x =? y * y) = true.
Proof.
  intros H. destruct (eqb_not_nan _ _ H) as [Hx Hy].
  destruct (eqb_true _ _ H) as [->|(s & s' & Ex & Ey)].
  - apply eqb_refl, square_not_nan, Hy.
  - rewrite FloatAxioms.eqb_spec, !mul_spec, Ex, Ey. simpl.
    destruct s, s'; reflexivity.
Qed.

(** The root of an absolute value is a number, and respects [==]. *)
Lemma sqrt_abs_not_nan (x : float) : is_nan x = false -> is_nan (sqrt (abs x)) = false.
Proof.
  rewrite !is_nan_false, sqrt_spec, abs_spec. apply SFsqrt_abs_not_nan.
Qed.

Lemma sqrt_abs_eqb (x y : float) :
  (x =? y) = true -> (sqrt (abs x) =? sqrt (abs y)) = true.
Proof.
  intros H. destruct (eqb_not_nan _ _ H) as [Hx Hy].
  destruct (eqb_true _ _ H) as [->|(s & s' & Ex & Ey)].
  - apply eqb_refl, sqrt_abs_not_nan, Hy.
  - rewrite FloatAxioms.eqb_spec, !sqrt_spec, !abs_spec, Ex, Ey. reflexivity.
Qed.



(** Dividing by a non-zero standard deviation, which is a square root,
    commutes with the absolute value. *)
Lemma abs_div_sqrt (a v : float) :
  (sqrt v =? 0) = false -> abs (a / sqrt v) = abs a / sqrt v.
Proof.
  rewrite FloatAxioms.eqb_spec, Prim2SF_zero, sqrt_spec. intros H.
  apply Prim2SF_inj.
  rewrite abs_spec, !div_spec, abs_spec, sqrt_spec.
  unfold SF64div. rewrite SFdiv_abs. f_equal.
  apply SFsqrt_abs, H.
Qed.

(** ** Results that cannot be zero *)

(** A float that is an infinity or a bounded finite number is not [== 0]. *)
Lemma not_zero_of_cases (x : spec_float) (s : bool) :
  (x = S754_infinity s \/
   exists m e, x = S754_finite s m e /\ bounded prec emax m e = true) ->
  valid_binary x = true /\ SFeqb x (S754_zero false) = false.
Proof.
  intros [->|(m & e & -> & Hb)]; simpl; split; auto; destruct s; reflexivity.
Qed.


(** Canonical mantissas with equal values are equal. *)
Lemma canonical_unique (m1 m2 : positive) (e1 e2 : Z) :
  bounded prec emax m1 e1 = true -> bounded prec emax m2 e2 = true ->
  (e1 <= e2)%Z -> Z.pos m1 = (Z.pos m2 * 2 ^ (e2 - e1))%Z ->
  e1 = e2 /\ m1 = m2.
Proof.
  unfold bounded, canonical_mantissa. rewrite !andb_true_iff, !Z.eqb_eq.
  intros [H1 _] [H2 _] Hle Hv.
  change (Z.pos (digits2_pos m1)) with (Zdigits2 (Z.pos m1)) in H1.
  change (Z.pos (digits2_pos m2)) with (Zdigits2 (Z.pos m2)) in H2.
  rewrite Hv, Zdigits2_mul_pow2 in H1 by lia.
  assert (E : e1 = e2).
  { replace (Zdigits2 (Z.pos m2) + (e2 - e1) + e1)%Z
      with (Zdigits2 (Z.pos m2) + e2)%Z in H1 by lia. congruence. }
  split; [exact E|]. subst e2. rewrite Z.sub_diag in Hv. simpl in Hv. lia.
Qed.

Lemma bounded_emin (m : positive) (e : Z) :
  bounded prec emax m e = true -> (SpecFloat.emin prec emax <= e)%Z.
Proof.
  unfold bounded, canonical_mantissa. rewrite andb_true_iff, Z.eqb_eq.
  intros [H _]. unfold fexp in H. lia.
Qed.

Lemma shl_align_min (m : positive) (e e' : Z) :
  (e' <= e)%Z -> Z.pos (fst (shl_align m e e')) = (Z.pos m * 2 ^ (e - e'))%Z.
Proof.
  intros H. pose proof (shl_align_value m e e') as Hs.
  destruct (shl_align m e e') as [m' e'']. simpl. destruct Hs as [Ha Hb].
  destruct (Z.eq_dec e e') as [->|Hne].
  - destruct (Hb ltac:(lia)) as [-> _]. rewrite Z.sub_diag. simpl. lia.
  - destruct (Ha ltac:(lia)) as [-> _]. reflexivity.
Qed.

(** The difference of two valid floats that do not compare equal is not a
    zero. *)
Lemma SFsub_not_zero (x y : spec_float) :
  valid_binary x = true -> valid_binary y = true ->
  SFeqb x y = false -> SFeqb (SFsub prec emax x y) (S754_zero false) = false.
Proof.
  destruct x as [sx|sx| |sx mx ex], y as [sy|sy| |sy my ey]; simpl;
    try reflexivity; try discriminate;
    try (destruct sx; reflexivity); try (destruct sy; reflexivity);
    try (destruct sx, sy; reflexivity).
  intros Hx Hy Hne.
  set (ez := Z.min ex ey).
  rewrite !shl_align_min by (unfold ez; lia).
  assert (Hpx : (0 < Z.pos mx * 2 ^ (ex - ez))%Z)
    by (apply Z.mul_pos_pos; [lia | apply Z.pow_pos_nonneg; unfold ez; lia]).
  assert (Hpy : (0 < Z.pos my * 2 ^ (ey - ez))%Z)
    by (apply Z.mul_pos_pos; [lia | apply Z.pow_pos_nonneg; unfold ez; lia]).
  assert (Ev : forall a b : Z, (0 < a)%Z -> (0 < b)%Z ->
               (cond_Zopp sx a - cond_Zopp sy b)%Z = 0%Z -> sx = sy /\ a = b).
  { intros a b Ha Hb. unfold cond_Zopp. destruct sx, sy; intros E; split; try reflexivity; lia. }
  set (m := (cond_Zopp sx (Z.pos mx * 2 ^ (ex - ez)) - cond_Zopp sy (Z.pos my * 2 ^ (ey - ez)))%Z).
  assert (Hm : m <> 0%Z).
  { unfold m. intros E. apply Ev in E; try assumption. clear Ev.
    destruct E as [<- Ev].
    assert (Heq : ex = ey /\ mx = my).
    { destruct (Z.le_ge_cases ex ey) as [Hle|Hge].
      - apply canonical_unique; try assumption.
        unfold ez in Ev. rewrite Z.min_l, Z.sub_diag, Z.pow_0_r, Z.mul_1_r in Ev by exact Hle.
        exact Ev.
      - assert (ey = ex /\ my = mx) as [-> ->]; [|split; reflexivity].
        apply canonical_unique; try assumption.
        unfold ez in Ev. rewrite Z.min_r, Z.sub_diag, Z.pow_0_r, Z.mul_1_r in Ev by lia.
        symmetry. exact Ev. }
    destruct Heq as [-> ->].
    unfold SFeqb in Hne. simpl in Hne.
    rewrite Z.compare_refl, Pos.compare_cont_refl in Hne. destruct sx; discriminate. }
  destruct (binary_normalize_finite prec emax ltac:(reflexivity) m ez false Hm) as (s & H).
  { pose proof (bounded_emin _ _ Hx). pose proof (bounded_emin _ _ Hy). unfold ez. lia. }
  apply (not_zero_of_cases _ s H).
Qed.

Lemma sub_not_zero (x y : float) : (x =? y) = false -> (x - y =? 0) = false.
Proof.
  rewrite !FloatAxioms.eqb_spec, sub_spec.
  apply SFsub_not_zero; apply Prim2SF_valid.
Qed.

End FloatFacts.

(* ===================================================================== *)
(** * Facts about the numpy operations *)
(* ===================================================================== *)

Module NumpyFacts.
Import PyNum Numpy FloatFacts.

Local Open Scope float_scope.

Lemma minimum_nan (a b : float) : is_nan a = true -> minimum a b = a.
Proof. intros H. unfold minimum. rewrite H, orb_true_r. reflexivity. Qed.

Lemma maximum_nan (a b : float) : is_nan a = true -> maximum a b = a.
Proof. intros H. unfold maximum. rewrite H, orb_true_r. reflexivity. Qed.

(** A minimum that is a number bounds numbers only, from below. *)
Lemma fold_minimum_spec (l : list float) (a : float) :
  is_nan (fold_left minimum l a) = false ->
  is_nan a = false /\ Forall (fun x => is_nan x = false) l /\
  (fold_left minimum l a <=? a) = true /\
  Forall (fun x => (fold_left minimum l a <=? x) = true) l.
Proof.
  revert a. induction l as [|b l IH]; intros a H; simpl in *.
  - repeat split; auto. apply leb_refl, H.
  - destruct (IH _ H) as (Ha' & Hl & Hle & Hall).
    set (r := fold_left minimum l (minimum a b)) in *.
    assert (Ha : is_nan a = false).
    { destruct (is_nan a) eqn:E; [|reflexivity].
      rewrite (minimum_nan a b E) in Ha'. congruence. }
    unfold minimum in Ha', Hle. rewrite Ha, orb_false_r in Ha', Hle.
    destruct (a <=? b) eqn:Hab.
    + destruct (leb_not_nan _ _ Hab) as [_ Hb].
      repeat split; auto. constructor; auto.
      apply leb_trans with a; assumption.
    + assert (Hba : (b <=? a) = true).
      { destruct (leb_total a b Ha Ha') as [E|E]; congruence. }
      repeat split; auto. apply leb_trans with b; assumption.
  Qed.

(** A maximum that is a number bounds numbers only, from above. *)
Lemma fold_maximum_spec (l : list float) (a : float) :
  is_nan (fold_left maximum l a) = false ->
  is_nan a = false /\ Forall (fun x => is_nan x = false) l /\
  (a <=? fold_left maximum l a) = true /\
  Forall (fun x => (x <=? fold_left maximum l a) = true) l.
Proof.
  revert a. induction l as [|b l IH]; intros a H; simpl in *.
  - repeat split; auto. apply leb_refl, H.
  - destruct (IH _ H) as (Ha' & Hl & Hle & Hall).
    set (r := fold_left maximum l (maximum a b)) in *.
    assert (Ha : is_nan a = false).
    { destruct (is_nan a) eqn:E; [|reflexivity].
      rewrite (maximum_nan a b E) in Ha'. congruence. }
    unfold maximum in Ha', Hle. rewrite Ha, orb_false_r in Ha', Hle.
    destruct (b <=? a) eqn:Hba.
    + destruct (leb_not_nan _ _ Hba) as [Hb _].
      repeat split; auto. constructor; auto.
      apply leb_trans with a; assumption.
    + assert (Hab : (a <=? b) = true).
      { destruct (leb_total a b Ha Ha') as [E|E]; congruence. }
      repeat split; auto. apply leb_trans with b; assumption.
Qed.

(** The reductions pick one of the elements. *)
Lemma fold_minimum_In (l : list float) (a : float) :
  In (fold_left minimum l a) (a :: l).
Proof.
  revert a. induction l as [|b l IH]; intros a; simpl; auto.
  destruct (IH (minimum a b)) as [E|E]; [|auto].
  rewrite <- E. unfold minimum. destruct ((a <=? b) || is_nan a); auto.
Qed.

Lemma fold_maximum_In (l : list float) (a : float) :
  In (fold_left maximum l a) (a :: l).
Proof.
  revert a. induction l as [|b l IH]; intros a; simpl; auto.
  destruct (IH (maximum a b)) as [E|E]; [|auto].
  rewrite <- E. unfold maximum. destruct ((b <=? a) || is_nan a); auto.
Qed.

(** When the maximum [==] the minimum, every element [==] the minimum. *)
Lemma max_eq_min_constant (arr : ndarray) (mn mx : float) :
  np_min arr = Return mn -> np_max arr = Return mx -> (mx =? mn) = true ->
  Forall (fun x => (x =? mn) = true) arr.
Proof.
  destruct arr as [|a l]; [discriminate|]. unfold np_min, np_max. simpl.
  intros [= <-] [= <-] H.
  destruct (eqb_not_nan _ _ H) as [Hmx Hmn].
  destruct (fold_minimum_spec l a Hmn) as (_ & _ & Hmin_a & Hmin_l).
  destruct (fold_maximum_spec l a Hmx) as (_ & _ & Hmax_a & Hmax_l).
  set (mn := fold_left minimum l a) in *. set (mx := fold_left maximum l a) in *.
  assert (Hx : forall x, (mn <=? x) = true -> (x <=? mx) = true -> (x =? mn) = true).
  { intros x H1 H2. apply leb_antisym; [|exact H1].
    apply leb_trans with mx; [exact H2 | apply eqb_leb, H]. }
  constructor; [apply Hx; assumption|].
  rewrite List.Forall_forall in *. intros x Hin. apply Hx; auto.
Qed.

(** The reductions of an array whose elements all [==] one number [==]
    that number. *)
Lemma fold_minimum_constant (c : float) (l : list float) (a : float) :
  (a =? c) = true -> Forall (fun x => (x =? c) = true) l ->
  (fold_left minimum l a =? c) = true.
Proof.
  intros Ha Hl. pose proof (fold_minimum_In l a) as Hin.
  destruct Hin as [<-|Hin]; [exact Ha|].
  rewrite List.Forall_forall in Hl. apply Hl, Hin.
Qed.

Lemma fold_maximum_constant (c : float) (l : list float) (a : float) :
  (a =? c) = true -> Forall (fun x => (x =? c) = true) l ->
  (fold_left maximum l a =? c) = true.
Proof.
  intros Ha Hl. pose proof (fold_maximum_In l a) as Hin.
  destruct Hin as [<-|Hin]; [exact Ha|].
  rewrite List.Forall_forall in Hl. apply Hl, Hin.
Qed.

Lemma np_zeros_like_repeat (arr : ndarray) :
  np_zeros_like arr = repeat 0 (length arr).
Proof.
  unfold np_zeros_like. induction arr as [|x arr IH]; simpl; congruence.
Qed.

(** Indexing by the mask of a test keeps the elements that pass it. *)
Lemma np_compress_map (p : float -> bool) (arr : ndarray) :
  np_compress (map p arr) arr = List.filter p arr.
Proof.
  induction arr as [|x arr IH]; simpl; [reflexivity|].
  destruct (p x); rewrite IH; reflexivity.
Qed.

End NumpyFacts.

(* ===================================================================== *)
(** * The data processor meets its specification *)
(* ===================================================================== *)

Module DataProcessorSpec.
Import PyNum Numpy DataProcessor FloatFacts NumpyFacts.

Local Open Scope float_scope.

Ltac run_traced :=
  unfold mbind, traced_bind, mret, traced_ret, quiet, np_true_divide; simpl.

(** ** The normalize transform *)

Lemma normalize_cons (a : float) (l : list float) :
  _normalize (a :: l) =
  let min_val := fold_left minimum l a in
  let max_val := fold_left maximum l a in
  if max_val =? min_val then (Return (np_zeros_like (a :: l)), [])
  else (Return (map (fun x => x / (max_val - min_val)) (np_subtract (a :: l) min_val)),
        [max_val - min_val]).
Proof.
  unfold _normalize, np_min, np_max, reduce. run_traced.
  destruct (fold_left maximum l a =? fold_left minimum l a); reflexivity.
Qed.

Lemma normalize_max_eq_min (arr : ndarray) (mn mx : float) :
  np_min arr = Return mn -> np_max arr = Return mx -> (mx =? mn) = true ->
  _normalize arr = (Return (repeat 0 (length arr)), []).
Proof.
  destruct arr as [|a l]; [discriminate|]. intros Hmn Hmx H.
  rewrite normalize_cons. cbv zeta.
  unfold np_min, np_max, reduce in Hmn, Hmx. injection Hmn as <-. injection Hmx as <-.
  rewrite H, np_zeros_like_repeat. reflexivity.
Qed.

Lemma normalize_constant (c : float) (arr : ndarray) :
  arr <> [] -> Forall (fun x => (x =? c) = true) arr ->
  _normalize arr = (Return (repeat 0 (length arr)), []).
Proof.
  destruct arr as [|a l]; [congruence|]. intros _ H.
  inversion H as [|? ? Ha Hl]; subst.
  apply normalize_max_eq_min
    with (mn := fold_left minimum l a) (mx := fold_left maximum l a); try reflexivity.
  apply eqb_trans with c; [apply fold_maximum_constant; assumption|].
  apply eqb_sym, fold_minimum_constant; assumption.
Qed.

(** A single element that is a number is constant data. *)
Lemma normalize_single (x : float) :
  is_nan x = false -> _normalize [x] = (Return [0], []).
Proof.
  intros H. apply (normalize_max_eq_min [x] x x); try reflexivity.
  apply eqb_refl, H.
Qed.



(** Whatever the array, the transform never divides by zero: it divides
    only when the maximum and the minimum differ, and the difference of two
    floats that differ is not zero. *)
Lemma normalize_divisors_not_zero (arr : ndarray) :
  Forall (fun d => (d =? 0) = false) (divisors (_normalize arr)).
Proof.
  destruct arr as [|a l]; [constructor|].
  rewrite normalize_cons. cbv zeta.
  destruct (fold_left maximum l a =? fold_left minimum l a) eqn:E; simpl.
  - constructor.
  - constructor; [|constructor]. apply sub_not_zero, E.
Qed.

(** ** [process] case by case *)

Lemma process_empty (self : DataProcessor) (operation : string) :
  process self [] operation = (Raise EmptyInput, []).
Proof. reflexivity. Qed.

Lemma bind_return {A B : Type} (a : A) (k : A -> traced B) :
  mbind (M := traced) k (Return a, []) = k a.
Proof.
  unfold mbind, traced_bind. destruct (k a). reflexivity.
Qed.

Lemma bind_mret {A : Type} (c : traced A) :
  mbind (M := traced) (fun a => mret a) c = c.
Proof.
  unfold mbind, traced_bind, mret, traced_ret.
  destruct c as [[a|e] t]; [rewrite app_nil_r|]; reflexivity.
Qed.

Lemma process_nonempty (self : DataProcessor) (data : list float) (operation : string) :
  data <> [] ->
  process self data operation =
  mbind (fun result =>
           if normalize self && negb (String.eqb operation "normalize")
           then _normalize result else mret result)
        (requested operation data).
Proof.
  destruct data as [|a l]; [congruence|]. intros _.
  unfold process, requested, np_array, tolist.
  set (c := if String.eqb operation "identity" then _ else _).
  unfold mbind, traced_bind. destruct c as [[r|e] t]; [|reflexivity].
  destruct (if normalize self && negb (String.eqb operation "normalize")
            then _normalize r else mret r) as [[r'|e'] t'] eqn:E; simpl;
    rewrite ?app_nil_r; reflexivity.
Qed.

Lemma requested_elementwise (operation : string) (arr : ndarray) :
  In operation elementwise ->
  String.eqb operation "normalize" = false /\
  exists f : float -> float,
    requested operation arr = (Return (map f arr), []) /\
    (forall x y, (x =? y) = true -> (f x =? f y) = true) /\
    ((operation = "identity" /\ f = (fun x => x)) \/
     (operation = "square" /\ f = (fun x => x * x)) \/
     (operation = "sqrt" /\ f = (fun x => sqrt (abs x)))).
Proof.
  unfold elementwise. simpl.
  intros [<-|[<-|[<-|[]]]]; (split; [reflexivity|]).
  - exists (fun x => x). unfold requested. simpl. rewrite map_id. auto.
  - exists (fun x => x * x). unfold requested. simpl.
    split; [reflexivity|]. split; [apply square_eqb|auto].
  - exists (fun x => sqrt (abs x)). unfold requested, np_sqrt, np_abs. simpl.
    rewrite map_map. split; [reflexivity|]. split; [apply sqrt_abs_eqb|auto 6].
Qed.


(** ** The elementwise operations *)


(** ** The post-processing rule *)


(** ** Constant data *)

(** C3. For data whose maximum [==] its minimum, the normalize transform
    returns zeros, one per element, both when it is requested as the
    operation and when it is applied by the flag after an elementwise
    operation; and it executes no array division at all, so none with a
    zero denominator. *)
Theorem normalize_constant_zeros (self : DataProcessor) (data : list float)
    (mn mx : float) :
  np_min data = Return mn -> np_max data = Return mx -> (mx =? mn) = true ->
  process self data "normalize" = (Return (repeat 0 (length data)), []) /\
  (forall operation,
      In operation elementwise -> normalize self = true ->
      process self data operation = (Return (repeat 0 (length data)), [])).
Proof.
  intros Hmn Hmx H.
  assert (Hne : data <> []) by (destruct data; [discriminate|congruence]).
  split.
  - rewrite process_nonempty by exact Hne. simpl. rewrite andb_false_r.
    unfold requested. simpl. rewrite bind_mret.
    apply (normalize_max_eq_min data mn mx); assumption.
  - intros operation Hel Hflag.
    rewrite process_nonempty by exact Hne.
    destruct (requested_elementwise operation data Hel) as (Hnn & f & Hreq & Hf & _).
    rewrite Hreq, Hflag, Hnn.
    rewrite (bind_return (map f data)). simpl.
    rewrite <- (length_map f data).
    apply (normalize_constant (f mn)).
    + destruct data; [congruence|discriminate].
    + pose proof (max_eq_min_constant data mn mx Hmn Hmx H) as Hall.
      rewrite List.Forall_forall in *. intros y Hy.
      apply in_map_iff in Hy. destruct Hy as (x & <- & Hx). apply Hf, Hall, Hx.
Qed.

(** ** Errors *)

Lemma EmptyInput_not_InvalidOperation (operation : string) :
  EmptyInput <> InvalidOperation operation.
Proof. unfold EmptyInput, InvalidOperation. simpl. discriminate. Qed.

(** C10. On empty data [process] raises [EmptyInput] whatever the operation
    string is, recognized or not; and [EmptyInput] is not the
    [InvalidOperation] error of that string. *)
Theorem process_empty_precedes (self : DataProcessor) (operation : string) :
  process self [] operation = (Raise EmptyInput, []) /\
  EmptyInput <> InvalidOperation operation.
Proof. split; [reflexivity | apply EmptyInput_not_InvalidOperation]. Qed.

Lemma np_min_returns (a : float) (l : list float) :
  np_min (a :: l) = Return (fold_left minimum l a).
Proof. reflexivity. Qed.

Lemma np_max_returns (a : float) (l : list float) :
  np_max (a :: l) = Return (fold_left maximum l a).
Proof. reflexivity. Qed.




Lemma divisors_bind {A B : Type} (P : float -> Prop) (c : traced A) (k : A -> traced B) :
  Forall P (divisors c) -> (forall a, Forall P (divisors (k a))) ->
  Forall P (divisors (mbind k c)).
Proof.
  intros Hc Hk. destruct c as [[a|e] t]; unfold mbind, traced_bind; [|exact Hc].
  specialize (Hk a). destruct (k a) as [r t']. simpl in *.
  apply Forall_app. split; assumption.
Qed.

(** No method ever divides an array by zero. *)
Theorem divisors_not_zero (self : DataProcessor) (data : list float)
    (operation : string) (threshold : float) :
  Forall (fun d => (d =? 0) = false) (divisors (process self data operation)) /\
  Forall (fun d => (d =? 0) = false) (divisors (filter_outliers self data threshold)).
Proof.
  split.
  - destruct data as [|a l]; [constructor|].
    rewrite process_nonempty by discriminate.
    apply divisors_bind.
    + unfold requested.
      repeat match goal with
             | |- context [String.eqb operation ?s] => destruct (String.eqb operation s)
             end;
        try apply normalize_divisors_not_zero; constructor.
    + intros r. destruct (normalize self && negb (String.eqb operation "normalize"));
        [apply normalize_divisors_not_zero | constructor].
  - destruct data as [|a l]; [constructor|].
    unfold filter_outliers. destruct (length (a :: l) <? 3)%nat; [constructor|].
    cbv zeta. destruct (np_std (np_array (a :: l)) =? 0) eqn:E; [constructor|].
    run_traced. constructor; [exact E|constructor].
Qed.

(** ** Statistics *)

Lemma arithmetic_mean_np_mean (data : list float) :
  arithmetic_mean data = np_mean data.
Proof. reflexivity. Qed.


Lemma np_min_is_minimum (data : list float) (m : float) :
  np_min data = Return m -> is_minimum m data.
Proof.
  destruct data as [|a l]; [discriminate|]. rewrite np_min_returns. intros [= <-].
  pose proof (fold_minimum_In l a) as Hin.
  split; [exact Hin|]. split.
  - intros Hall. rewrite List.Forall_forall in Hall.
    destruct (fold_minimum_spec l a (Hall _ Hin)) as (_ & _ & Ha & Hl).
    constructor; assumption.
  - intros Hex. destruct (is_nan (fold_left minimum l a)) eqn:E; [reflexivity|].
    destruct (fold_minimum_spec l a E) as (Ha & Hl & _).
    apply List.Exists_exists in Hex. destruct Hex as (x & Hx & Hnan).
    assert (Hall : Forall (fun x => is_nan x = false) (a :: l)) by (constructor; assumption).
    rewrite List.Forall_forall in Hall. rewrite (Hall x Hx) in Hnan. discriminate.
Qed.

Lemma np_max_is_maximum (data : list float) (m : float) :
  np_max data = Return m -> is_maximum m data.
Proof.
  destruct data as [|a l]; [discriminate|]. rewrite np_max_returns. intros [= <-].
  pose proof (fold_maximum_In l a) as Hin.
  split; [exact Hin|]. split.
  - intros Hall. rewrite List.Forall_forall in Hall.
    destruct (fold_maximum_spec l a (Hall _ Hin)) as (_ & _ & Ha & Hl).
    constructor; assumption.
  - intros Hex. destruct (is_nan (fold_left maximum l a)) eqn:E; [reflexivity|].
    destruct (fold_maximum_spec l a E) as (Ha & Hl & _).
    apply List.Exists_exists in Hex. destruct Hex as (x & Hx & Hnan).
    assert (Hall : Forall (fun x => is_nan x = false) (a :: l)) by (constructor; assumption).
    rewrite List.Forall_forall in Hall. rewrite (Hall x Hx) in Hnan. discriminate.
Qed.


(** ** Outliers *)

Lemma z_scores_mask (data : list float) (c d threshold : float) :
  np_compress (np_less (np_abs (map (fun x => x / d) (np_subtract data c))) threshold) data
  = List.filter (fun x => abs ((x - c) / d) <? threshold) data.
Proof.
  unfold np_less, np_abs, np_subtract. rewrite !map_map.
  apply (np_compress_map (fun x => abs ((x - c) / d) <? threshold)).
Qed.

Lemma filter_outliers_large (self : DataProcessor) (data : list float)
    (threshold : float) :
  (3 <= length data)%nat -> (np_std data =? 0) = false ->
  filter_outliers self data threshold =
  (Return (List.filter (fun x => z_score data x <? threshold) data), [np_std data]).
Proof.
  intros Hlen Hstd. destruct data as [|a l]; [simpl in Hlen; lia|].
  unfold filter_outliers, np_array, tolist.
  destruct (Nat.ltb_spec (length (a :: l)) 3); [lia|].
  cbv zeta. rewrite Hstd. run_traced.
  f_equal. f_equal.
  change (np_compress
            (np_less (np_abs (map (fun x => x / np_std (a :: l))
                                (np_subtract (a :: l) (np_mean (a :: l))))) threshold)
            (a :: l)
          = List.filter (fun x => z_score (a :: l) x <? threshold) (a :: l)).
  rewrite z_scores_mask. apply filter_ext. intros x. unfold z_score.
  f_equal. unfold np_std in *. apply abs_div_sqrt, Hstd.
Qed.


Lemma filter_none {A : Type} (p : A -> bool) (l : list A) :
  (forall x, p x = false) -> List.filter p l = [].
Proof.
  intros H. induction l as [|x l IH]; [reflexivity|].
  simpl. rewrite H. exact IH.
Qed.


End DataProcessorSpec.

(* ===================================================================== *)
(** * The calculator meets its specification *)
(* ===================================================================== *)

Module CalculatorSpec.
Import PyNum Calculator.

Local Open Scope float_scope.
Local Open Scope list_scope.

Ltac run_method :=
  unfold mbind, method_bind, mret, method_ret, eval, raise, history_append; simpl.

(** ** The arithmetic methods *)

(** A method that evaluates [expr], appends the entry of its value and
    returns the value. *)
Lemma logged_operation (op : string) (a b : Number) (expr : result Number)
    (self : Calculator) :
  (result ← eval expr; history_append (entry op a b result);; mret result) self =
  match expr with
  | Return r => (Return r, {| history := history self ++ [entry op a b r] |})
  | Raise e => (Raise e, self)
  end.
Proof. run_method. destruct expr; reflexivity. Qed.

Lemma add_run (a b : Number) (self : Calculator) :
  add a b self =
  match py_add a b with
  | Return r => (Return r, {| history := history self ++ [entry "+" a b r] |})
  | Raise e => (Raise e, self)
  end.
Proof. apply logged_operation. Qed.

Lemma subtract_run (a b : Number) (self : Calculator) :
  subtract a b self =
  match py_sub a b with
  | Return r => (Return r, {| history := history self ++ [entry "-" a b r] |})
  | Raise e => (Raise e, self)
  end.
Proof. apply logged_operation. Qed.

Lemma multiply_run (a b : Number) (self : Calculator) :
  multiply a b self =
  match py_mul a b with
  | Return r => (Return r, {| history := history self ++ [entry "*" a b r] |})
  | Raise e => (Raise e, self)
  end.
Proof. apply logged_operation. Qed.

Lemma divide_run (a b : Number) (self : Calculator) :
  divide a b self =
  if py_eq_zero b then (Raise (ValueError "Cannot divide by zero"), self)
  else
    match py_truediv a b with
    | Return q =>
        (Return q, {| history := history self ++ [entry "/" a b (PyFloat q)] |})
    | Raise e => (Raise e, self)
    end.
Proof.
  unfold divide. destruct (py_eq_zero b); [reflexivity|].
  run_method. destruct (py_truediv a b); reflexivity.
Qed.

(** ** Division *)

(** C7. When [b == 0], [divide] raises the [ValueError] of a division by
    zero and leaves the instance, hence its history, as it was. *)
Theorem divide_by_zero (a b : Number) (self : Calculator) :
  py_eq_zero b = true ->
  divide a b self = (Raise (ValueError "Cannot divide by zero"), self).
Proof. intros H. rewrite divide_run, H. reflexivity. Qed.


Lemma float_of_int_overflow (z : Z) (e : exception) :
  float_of_int z = Raise e -> exists msg, e = OverflowError msg.
Proof.
  unfold float_of_int. destruct (is_infinity (Z2F z)); [|discriminate].
  intros [= <-]. eauto.
Qed.




(** ** The history *)

(** What one call does to the history. *)
Lemma step_history (c : call) (self : Calculator) :
  history (step self c) =
  match c with
  | ClearHistory => []
  | _ => match recorded c self with
         | Some l => history self ++ [l]
         | None => history self
         end
  end.
Proof.
  unfold step, recorded, invoke.
  destruct c as [a b|a b|a b|a b| |]; unfold mbind, method_bind;
    rewrite ?add_run, ?subtract_run, ?multiply_run, ?divide_run; try reflexivity.
  - destruct (py_add a b); reflexivity.
  - destruct (py_sub a b); reflexivity.
  - destruct (py_mul a b); reflexivity.
  - destruct (py_eq_zero b); [reflexivity|]. destruct (py_truediv a b); reflexivity.
Qed.

(** A call records a line exactly when it is a successful arithmetic call. *)
Lemma recorded_iff (c : call) (self : Calculator) :
  is_arithmetic c && succeeds c self = match recorded c self with Some _ => true | None => false end.
Proof.
  unfold succeeds, recorded, invoke.
  destruct c as [a b|a b|a b|a b| |]; unfold mbind, method_bind;
    rewrite ?add_run, ?subtract_run, ?multiply_run, ?divide_run; try reflexivity.
  - destruct (py_add a b); reflexivity.
  - destruct (py_sub a b); reflexivity.
  - destruct (py_mul a b); reflexivity.
  - destruct (py_eq_zero b); [reflexivity|]. destruct (py_truediv a b); reflexivity.
Qed.

(** What a call returns and records does not depend on the instance. *)
Lemma recorded_independent (c : call) (self self' : Calculator) :
  recorded c self = recorded c self'.
Proof.
  unfold recorded, invoke.
  destruct c as [a b|a b|a b|a b| |]; unfold mbind, method_bind;
    rewrite ?add_run, ?subtract_run, ?multiply_run, ?divide_run; try reflexivity.
  - destruct (py_add a b); reflexivity.
  - destruct (py_sub a b); reflexivity.
  - destruct (py_mul a b); reflexivity.
  - destruct (py_eq_zero b); [reflexivity|]. destruct (py_truediv a b); reflexivity.
Qed.

Lemma successful_recorded (c : call) (self : Calculator) :
  successful c = match recorded c self with Some _ => true | None => false end.
Proof.
  unfold successful. rewrite recorded_iff. rewrite (recorded_independent c init self).
  reflexivity.
Qed.

(** The history after some calls, from the calls made before them since
    the last clear. *)
Lemma run_history (calls made : list call) (self : Calculator) :
  history self = omap (fun c => recorded c init) made ->
  history (run calls self) =
  omap (fun c => recorded c init)
       (fold_left (fun made c => match c with
                                 | ClearHistory => []
                                 | _ => made ++ [c]
                                 end) calls made).
Proof.
  revert made self. induction calls as [|c calls IH]; intros made self H; [exact H|].
  simpl. apply IH. rewrite step_history.
  rewrite (recorded_independent c self init).
  destruct c; try reflexivity;
    rewrite omap_app, <- H;
    change (omap (fun c => recorded c init) [?c]) with
      (match recorded c init with Some l => [l] | None => [] end);
    destruct (recorded _ init); rewrite ?app_nil_r; reflexivity.
Qed.

Lemma recorded_length (made : list call) :
  length (omap (fun c => recorded c init) made) = length (List.filter successful made).
Proof.
  induction made as [|c made IH]; [reflexivity|].
  change (omap (fun c => recorded c init) (c :: made)) with
    (match recorded c init with
     | Some l => l :: omap (fun c => recorded c init) made
     | None => omap (fun c => recorded c init) made
     end).
  cbn [List.filter]. rewrite (successful_recorded c init).
  destruct (recorded c init); simpl; rewrite IH; reflexivity.
Qed.

(** C9. After any sequence of calls on a fresh instance the history holds
    the lines of the successful arithmetic calls made since construction or
    the last [clear_history], in call order, so its length is their number;
    a call other than [clear_history] only appends, one line when it is
    a successful arithmetic call and nothing otherwise; and
    [clear_history] empties the history. *)
Theorem history_invariant (calls : list call) :
  history (run calls init) = omap (fun c => recorded c init) (since_last_clear calls) /\
  length (history (run calls init)) =
  length (List.filter successful (since_last_clear calls)) /\
  (forall self c, c <> ClearHistory ->
     exists lines, history (step self c) = history self ++ lines /\
                   length lines = if successful c then 1%nat else 0%nat) /\
  (forall self, history (step self ClearHistory) = []).
Proof.
  assert (H : history (run calls init)
              = omap (fun c => recorded c init) (since_last_clear calls))
    by (apply run_history; reflexivity).
  split; [exact H|]. split; [|split].
  - rewrite H. apply recorded_length.
  - intros self c Hc. rewrite step_history, (successful_recorded c self).
    destruct c; try congruence;
      try (destruct (recorded _ self) as [l|];
           [exists [l] | exists []]; rewrite ?app_nil_r; split; reflexivity).
  - intros self. reflexivity.
Qed.

End CalculatorSpec.

(* ===================================================================== *)
(** * The theorems at concrete inputs *)
(* ===================================================================== *)

Module Examples.
Import PyNum Calculator Numpy DataProcessor CalculatorSpec DataProcessorSpec.

Local Open Scope float_scope.
Local Open Scope list_scope.

(** ** The repository's tests *)

(** [test_calculator_add], [test_calculator_subtract],
    [test_calculator_multiply], [test_calculator_divide]. *)
Example test_calculator_arithmetic :
  fst (add (PyInt 2) (PyInt 3) Calculator.init) = Return (PyInt 5) /\
  fst (add (PyInt (-1)) (PyInt 1) Calculator.init) = Return (PyInt 0) /\
  fst (subtract (PyInt 0) (PyInt 5) Calculator.init) = Return (PyInt (-5)) /\
  fst (subtract (PyFloat 10.5) (PyFloat 0.5) Calculator.init) = Return (PyFloat 10) /\
  fst (multiply (PyFloat 0.5) (PyInt 4) Calculator.init) = Return (PyFloat 2) /\
  fst (divide (PyInt 6) (PyInt 2) Calculator.init) = Return 3 /\
  fst (divide (PyInt (-10)) (PyInt 2) Calculator.init) = Return (-5).
Proof. repeat split; vm_compute; reflexivity. Qed.

(** [test_calculator_history]. *)
Example test_calculator_history :
  history (run [Add (PyInt 2) (PyInt 3); Multiply (PyInt 4) (PyInt 5)] Calculator.init)
  = ["2 + 3 = 5"; "4 * 5 = 20"].
Proof. vm_compute. reflexivity. Qed.

(** [test_calculator_clear_history], and clearing twice. *)
Example test_calculator_clear_history :
  history (run [Add (PyInt 1) (PyInt 1); Subtract (PyInt 5) (PyInt 3); ClearHistory]
             Calculator.init) = [] /\
  history (run [Add (PyInt 1) (PyInt 1); ClearHistory; ClearHistory] Calculator.init) = [].
Proof. split; vm_compute; reflexivity. Qed.

(** A failed call in the middle of a sequence leaves no line, and floats
    are rendered with a decimal point. *)
Example history_skips_failed_calls :
  history (run [Divide (PyInt 1) (PyInt 4); Divide (PyInt 1) (PyFloat 0);
                Divide (PyInt (10 ^ 400)) (PyInt 1); GetHistory;
                Add (PyFloat 0.5) (PyInt 3)] Calculator.init)
  = ["1 / 4 = 0.25"; "0.5 + 3 = 3.5"] /\
  List.filter successful
    (since_last_clear [Divide (PyInt 1) (PyInt 4); Divide (PyInt 1) (PyFloat 0);
                       Divide (PyInt (10 ^ 400)) (PyInt 1); GetHistory;
                       Add (PyFloat 0.5) (PyInt 3)])
  = [Divide (PyInt 1) (PyInt 4); Add (PyFloat 0.5) (PyInt 3)].
Proof. split; vm_compute; reflexivity. Qed.

(** [test_data_processor_identity], [_square], [_sqrt], [_normalize],
    [_auto_normalize]. *)
Example test_data_processor_operations :
  outcome (process default [1; 2; 3; 4; 5] "identity") = Return [1; 2; 3; 4; 5] /\
  outcome (process default [1; 2; 3] "square") = Return [1; 4; 9] /\
  outcome (process default [1; 4; 9; 16] "sqrt") = Return [1; 2; 3; 4] /\
  outcome (process default [0; 5; 10] "normalize") = Return [0; 0.5; 1] /\
  outcome (process (init true) [10; 20; 30] "square") = Return [0; 0.375; 1] /\
  outcome (process (init true) [1; 2; 3; 4; 5] "identity") = Return [0; 0.25; 0.5; 0.75; 1].
Proof. repeat split; vm_compute; reflexivity. Qed.

(** [test_data_processor_empty_data], [_invalid_operation],
    [test_statistics_empty_data], [test_filter_outliers_empty]. *)
Example test_data_processor_errors :
  outcome (process default [] "identity") = Raise (ValueError "Data cannot be empty") /\
  outcome (process default [1; 2; 3] "invalid")
  = Raise (ValueError "Invalid operation: invalid") /\
  statistics default [] = Raise (ValueError "Data cannot be empty") /\
  outcome (filter_outliers default [] 2) = Raise (ValueError "Data cannot be empty").
Proof. repeat split; vm_compute; reflexivity. Qed.

(** [test_statistics]. *)
Example test_statistics :
  exists m, statistics default [1; 2; 3; 4; 5] = Return m /\
            m !! "mean" = Some 3 /\ m !! "min" = Some 1 /\ m !! "max" = Some 5 /\
            m !! "std" = Some (sqrt 2).
Proof. eexists. split; [reflexivity|]. repeat split; vm_compute; reflexivity. Qed.

(** [test_filter_outliers], [test_filter_outliers_small_dataset]. *)
Example test_filter_outliers :
  outcome (filter_outliers default [1; 2; 3; 4; 5; 100] 2) = Return [1; 2; 3; 4; 5] /\
  outcome (filter_outliers default [1; 2] 2) = Return [1; 2].
Proof. split; vm_compute; reflexivity. Qed.

(** A NaN does not compare equal to itself: a single NaN is not data whose
    maximum [==] its minimum, and the transform divides, by a NaN. *)
Example normalize_single_nan :
  process default [nan] "normalize" = (Return [nan], [nan]).
Proof. vm_compute. reflexivity. Qed.

(** ** The theorems applied *)

(** [Calculator().divide(5, 0)]. *)
Lemma divide_by_zero_witness :
  divide (PyInt 5) (PyInt 0) Calculator.init =
  (Raise (ValueError "Cannot divide by zero"), Calculator.init).
Proof. apply divide_by_zero. reflexivity. Defined.





(** [process([5, 5, 5], "normalize")], and with the flag. *)
Lemma normalize_constant_zeros_witness :
  process default [5; 5; 5] "normalize" = (Return [0; 0; 0], []) /\
  process (init true) [5; 5; 5] "square" = (Return [0; 0; 0], []).
Proof.
  pose proof (normalize_constant_zeros default [5; 5; 5] 5 5 eq_refl eq_refl eq_refl) as H1.
  pose proof (normalize_constant_zeros (init true) [5; 5; 5] 5 5 eq_refl eq_refl eq_refl) as H2.
  split; [exact (proj1 H1)|].
  apply (proj2 H2 "square"); [simpl; auto | reflexivity].
Defined.





End Examples.

(* ===================================================================== *)
(** * More facts about binary64 arithmetic *)
(* ===================================================================== *)

Module FloatMore.
Import PyNum FloatFacts.

Local Open Scope float_scope.

(** ** Signs *)

Lemma binary_round_aux_not_negative (prec emax : Z) (m e : Z) (l : location) :
  SFltb (binary_round_aux prec emax false m e l) (S754_zero false) = false.
Proof.
  unfold binary_round_aux.
  destruct (shr_fexp prec emax m e l) as [mrs' e'].
  destruct (shr_fexp prec emax _ e' loc_Exact) as [mrs'' e''].
  destruct (shr_m mrs'') as [|p|p]; try reflexivity.
  destruct (e'' <=? emax - prec)%Z; reflexivity.
Qed.

Lemma square_not_negative (x : float) : (x * x <? 0) = false.
Proof.
  rewrite ltb_spec, mul_spec, Prim2SF_zero. unfold SF64mul.
  destruct (Prim2SF x) as [s|s| |s m e]; simpl; try reflexivity; try (destruct s; reflexivity).
  replace (xorb s s) with false by (destruct s; reflexivity).
  apply binary_round_aux_not_negative.
Qed.

Lemma sqrt_not_negative (x : float) : (sqrt x <? 0) = false.
Proof.
  rewrite ltb_spec, sqrt_spec, Prim2SF_zero. unfold SF64sqrt.
  destruct (Prim2SF x) as [s|s| |s m e]; simpl; try reflexivity; try (destruct s; reflexivity).
  destruct s; [reflexivity|].
  destruct (SFsqrt_core_binary prec emax (Z.pos m) e) as [[mz ez] lz].
  apply binary_round_aux_not_negative.
Qed.

(** ** NaN *)

Lemma add_nan (x y : float) : is_nan x = true \/ is_nan y = true -> is_nan (x + y) = true.
Proof.
  rewrite !is_nan_true, add_spec. unfold SF64add.
  intros [-> | ->]; [reflexivity|]. destruct (Prim2SF x); reflexivity.
Qed.

Lemma sub_nan (x y : float) : is_nan x = true \/ is_nan y = true -> is_nan (x - y) = true.
Proof.
  rewrite !is_nan_true, sub_spec. unfold SF64sub.
  intros [-> | ->]; [reflexivity|]. destruct (Prim2SF x); reflexivity.
Qed.

Lemma mul_nan (x y : float) : is_nan x = true \/ is_nan y = true -> is_nan (x * y) = true.
Proof.
  rewrite !is_nan_true, mul_spec. unfold SF64mul.
  intros [-> | ->]; [reflexivity|]. destruct (Prim2SF x); reflexivity.
Qed.

Lemma div_nan (x y : float) : is_nan x = true \/ is_nan y = true -> is_nan (x / y) = true.
Proof.
  rewrite !is_nan_true, div_spec. unfold SF64div.
  intros [-> | ->]; [reflexivity|]. destruct (Prim2SF x); reflexivity.
Qed.

Lemma sqrt_nan (x : float) : is_nan x = true -> is_nan (sqrt x) = true.
Proof. rewrite !is_nan_true, sqrt_spec. intros ->. reflexivity. Qed.

Lemma abs_nan (x : float) : is_nan x = true -> is_nan (abs x) = true.
Proof. rewrite !is_nan_true, abs_spec. intros ->. reflexivity. Qed.

Lemma nan_unique (x : float) : is_nan x = true -> x = nan.
Proof. rewrite is_nan_true. intros H. apply Prim2SF_inj. rewrite H. reflexivity. Qed.

Lemma nan_not_ltb (x t : float) : is_nan x = true -> (x <? t) = false.
Proof. rewrite is_nan_true, ltb_spec. intros ->. reflexivity. Qed.

Lemma nan_not_eqb (x t : float) : is_nan x = true -> (x =? t) = false.
Proof. rewrite is_nan_true, FloatAxioms.eqb_spec. intros ->. reflexivity. Qed.

(** ** Order *)

Lemma SFltb_SFleb_trans (x y z : spec_float) :
  SFltb x y = true -> SFleb y z = true -> SFltb x z = true.
Proof.
  unfold SFltb, SFleb.
  destruct x as [[]|[]| |[] m1 e1], y as [[]|[]| |[] m2 e2], z as [[]|[]| |[] m3 e3];
    simpl; try discriminate; try reflexivity; sf_cases.
Qed.

Lemma ltb_leb_trans (x y z : float) :
  (x <? y) = true -> (y <=? z) = true -> (x <? z) = true.
Proof. rewrite !ltb_spec, leb_spec. apply SFltb_SFleb_trans. Qed.

(** ** Finite floats *)

Lemma is_finite_spec (x : float) :
  is_finite x = true ->
  (exists s, Prim2SF x = S754_zero s) \/ (exists s m e, Prim2SF x = S754_finite s m e).
Proof.
  unfold is_finite, is_infinity. rewrite negb_true_iff, orb_false_iff.
  intros [Hn Hi]. apply is_nan_false in Hn.
  rewrite FloatAxioms.eqb_spec, abs_spec in Hi.
  change (Prim2SF infinity) with (S754_infinity false) in Hi.
  destruct (Prim2SF x) as [s|s| |s m e]; eauto; [discriminate | congruence].
Qed.

Lemma finite_not_zero_spec (x : float) :
  is_finite x = true -> (x =? 0) = false ->
  exists s m e, Prim2SF x = S754_finite s m e.
Proof.
  intros Hf Hz. destruct (is_finite_spec x Hf) as [[s E]|E]; [|exact E].
  rewrite FloatAxioms.eqb_spec, E in Hz. discriminate.
Qed.

Lemma is_finite_not_nan (x : float) : is_finite x = true -> is_nan x = false.
Proof.
  unfold is_finite. rewrite negb_true_iff, orb_false_iff. tauto.
Qed.

(** A finite non-zero float divided by itself is exactly one. *)
Lemma SFdiv_self (s : bool) (m : positive) (e : Z) :
  SFdiv prec emax (S754_finite s m e) (S754_finite s m e) = Prim2SF 1.
Proof.
  unfold SFdiv, SFdiv_core_binary.
  replace (Zdigits2 (Z.pos m) + e - (Zdigits2 (Z.pos m) + e))%Z with 0%Z by lia.
  rewrite Z.sub_diag.
  change (Z.min (fexp prec emax 0) 0) with (-53)%Z.
  change (0 - -53)%Z with 53%Z. cbv iota.
  rewrite Z.shiftl_mul_pow2 by lia.
  assert (Hq : Z.div_eucl (Z.pos m * 2 ^ 53) (Z.pos m) = ((2 ^ 53)%Z, 0%Z)).
  { rewrite (surjective_pairing (Z.div_eucl (Z.pos m * 2 ^ 53) (Z.pos m))).
    change (fst (Z.div_eucl (Z.pos m * 2 ^ 53) (Z.pos m)))
      with ((Z.pos m * 2 ^ 53) / Z.pos m)%Z.
    change (snd (Z.div_eucl (Z.pos m * 2 ^ 53) (Z.pos m)))
      with ((Z.pos m * 2 ^ 53) mod Z.pos m)%Z.
    rewrite (Z.mul_comm (Z.pos m)), Z.div_mul, Z.mod_mul by lia. reflexivity. }
  rewrite Hq.
  replace (new_location (Z.pos m) 0) with loc_Exact
    by (unfold new_location, new_location_even, new_location_odd;
        destruct (Z.even (Z.pos m)); reflexivity).
  replace (xorb s s) with false by (destruct s; reflexivity).
  vm_compute. reflexivity.
Qed.

Lemma div_self (d : float) : is_finite d = true -> (d =? 0) = false -> d / d = 1.
Proof.
  intros Hf Hz. destruct (finite_not_zero_spec d Hf Hz) as (s & m & e & E).
  apply Prim2SF_inj. rewrite div_spec, E. apply SFdiv_self.
Qed.

(** A finite difference has finite operands. *)
Lemma sub_finite (x y : float) :
  is_finite (x - y) = true -> is_finite x = true /\ is_finite y = true.
Proof.
  intros H.
  assert (Hs : exists z, Prim2SF (x - y) = z /\ z <> S754_nan /\
                         forall s, z <> S754_infinity s).
  { destruct (is_finite_spec _ H) as [[s E]|(s & m & e & E)]; rewrite E;
      eexists; repeat split; congruence. }
  destruct Hs as (z & Ez & Hn & Hi). rewrite sub_spec in Ez. unfold SF64sub in Ez.
  assert (Hx : forall a, (exists s, Prim2SF a = S754_zero s) \/
                         (exists s m e, Prim2SF a = S754_finite s m e) ->
                         is_finite a = true).
  { intros a Ha. unfold is_finite, is_infinity. rewrite negb_true_iff, orb_false_iff.
    split.
    - apply is_nan_false. destruct Ha as [[s E]|(s & m & e & E)]; rewrite E; discriminate.
    - rewrite FloatAxioms.eqb_spec, abs_spec.
      destruct Ha as [[s E]|(s & m & e & E)]; rewrite E; reflexivity. }
  destruct (Prim2SF x) as [sx|sx| |sx mx ex] eqn:Ex,
           (Prim2SF y) as [sy|sy| |sy my ey] eqn:Ey; simpl in Ez; subst z;
    try congruence;
    try (exfalso; eapply Hi; reflexivity);
    try (destruct sx, sy; simpl in *; try congruence; exfalso; eapply Hi; reflexivity);
    split; apply Hx; eauto 6.
Qed.

(** Subtracting a finite float from a float that compares equal to it gives
    a zero. *)
Lemma sub_eqb_zero (x y : float) :
  is_finite y = true -> (x =? y) = true -> (x - y =? 0) = true.
Proof.
  intros Hf H. rewrite FloatAxioms.eqb_spec, sub_spec, Prim2SF_zero. unfold SF64sub.
  destruct (eqb_true _ _ H) as [->|(s & s' & Ex & Ey)].
  - destruct (is_finite_spec _ Hf) as [[s E]|(s & m & e & E)]; rewrite E; simpl.
    + destruct s; reflexivity.
    + rewrite Z.sub_diag. reflexivity.
  - rewrite Ex, Ey. destruct s, s'; reflexivity.
Qed.

(** A zero divided by a finite non-zero float is a zero. *)
Lemma zero_div (z d : float) :
  (z =? 0) = true -> is_finite d = true -> (d =? 0) = false -> (z / d =? 0) = true.
Proof.
  intros Hz Hf Hd. destruct (finite_not_zero_spec d Hf Hd) as (s & m & e & E).
  destruct (eqb_true _ _ Hz) as [->|(s1 & s2 & Ez & _)].
  - rewrite FloatAxioms.eqb_spec, div_spec, E. reflexivity.
  - rewrite FloatAxioms.eqb_spec, div_spec, E, Ez. reflexivity.
Qed.

(** Floats that compare equal have the same difference to a non-zero
    float. *)
Lemma sub_eqb_compat (x y c : float) :
  (x =? y) = true -> (y =? c) = false -> is_finite (y - c) = true -> x - c = y - c.
Proof.
  intros H Hne Hf. destruct (eqb_true _ _ H) as [->|(s & s' & Ex & Ey)]; [reflexivity|].
  destruct (sub_finite _ _ Hf) as [_ Hc].
  apply Prim2SF_inj. rewrite !sub_spec, Ex, Ey. unfold SF64sub.
  rewrite FloatAxioms.eqb_spec, Ey in Hne.
  destruct (is_finite_spec _ Hc) as [[sc E]|(sc & m & e & E)]; rewrite E in *.
  - discriminate.
  - reflexivity.
Qed.

End FloatMore.

(* ===================================================================== *)
(** * More properties of the data processor *)
(* ===================================================================== *)

Module DataProcessorMore.
Import PyNum Numpy DataProcessor FloatFacts FloatMore NumpyFacts DataProcessorSpec.

Local Open Scope float_scope.
Local Open Scope list_scope.

(** ** Lengths *)

Lemma normalize_length (arr r : list float) :
  outcome (_normalize arr) = Return r -> length r = length arr.
Proof.
  destruct arr as [|a l]; [discriminate|].
  rewrite normalize_cons. cbv zeta. destruct (_ =? _); unfold outcome; simpl;
    intros [= <-]; unfold np_zeros_like, np_subtract; simpl; rewrite ?length_map; reflexivity.
Qed.

Lemma requested_length (operation : string) (arr r : list float) :
  outcome (requested operation arr) = Return r -> length r = length arr.
Proof.
  unfold requested.
  repeat match goal with
         | |- context [String.eqb operation ?s] => destruct (String.eqb operation s)
         end;
    try (unfold outcome; simpl; intros [= <-];
         unfold np_square, np_sqrt, np_abs; rewrite ?length_map; reflexivity);
    try discriminate; try apply normalize_length.
Qed.

Lemma outcome_bind {A B : Type} (c : traced A) (k : A -> traced B) :
  outcome (mbind k c) =
  match outcome c with
  | Return a => outcome (k a)
  | Raise e => Raise e
  end.
Proof.
  destruct c as [[a|e] t]; unfold mbind, traced_bind, outcome; simpl; [|reflexivity].
  destruct (k a); reflexivity.
Qed.

(** Whenever [process] returns, the output has the length of the input,
    for every operation and either value of the flag. *)
Theorem process_length (self : DataProcessor) (data : list float)
    (operation : string) (r : list float) :
  outcome (process self data operation) = Return r -> length r = length data.
Proof.
  destruct data as [|a l]; [discriminate|].
  rewrite process_nonempty by discriminate. rewrite outcome_bind.
  destruct (outcome (requested operation (a :: l))) as [r'|e] eqn:E; [|discriminate].
  apply requested_length in E. rewrite <- E.
  destruct (normalize self && negb (String.eqb operation "normalize")).
  - apply normalize_length.
  - unfold outcome. simpl. intros [= <-]. reflexivity.
Qed.

(** ** Composition *)

(** Requesting ["identity"] from a processor that normalizes by default is
    requesting ["normalize"], from any processor. *)
Theorem identity_with_flag_is_normalize (self : DataProcessor) (data : list float) :
  process (init true) data "identity" = process self data "normalize".
Proof.
  destruct data as [|a l]; [reflexivity|].
  rewrite !process_nonempty by discriminate.
  replace (requested "identity" (a :: l))
    with (@pair (result (list float)) (list float) (Return (a :: l)) []) by reflexivity.
  replace (requested "normalize" (a :: l)) with (_normalize (a :: l)) by reflexivity.
  rewrite (bind_return (a :: l)).
  change (normalize (init true) && negb (String.eqb "identity" "normalize")) with true.
  change (negb (String.eqb "normalize" "normalize")) with false.
  rewrite andb_false_r. cbv iota. symmetry. apply bind_mret.
Qed.

(** ** Outliers *)

Lemma filter_sublist {A : Type} (p : A -> bool) (l : list A) :
  sublist (List.filter p l) l.
Proof.
  induction l as [|x l IH]; simpl; [constructor|].
  destruct (p x); [apply sublist_skip | apply sublist_cons]; exact IH.
Qed.

Lemma filter_sublist_mono {A : Type} (p q : A -> bool) (l : list A) :
  (forall x, p x = true -> q x = true) ->
  sublist (List.filter p l) (List.filter q l).
Proof.
  intros H. induction l as [|x l IH]; simpl; [constructor|].
  destruct (p x) eqn:Ep.
  - rewrite (H x Ep). apply sublist_skip, IH.
  - destruct (q x); [apply sublist_cons|]; exact IH.
Qed.

Lemma Return_inj {A : Type} (a b : A) : Return a = Return b -> a = b.
Proof. congruence. Qed.

(** What [filter_outliers] returns is the data or one filtering of it. *)
Lemma filter_outliers_outcome (self : DataProcessor) (data : list float)
    (threshold : float) :
  data <> [] ->
  outcome (filter_outliers self data threshold) =
  Return (if ((length data <? 3)%nat || (np_std data =? 0))%bool then data
          else List.filter (fun x => z_score data x <? threshold) data).
Proof.
  intros Hne. destruct (Nat.ltb_spec (length data) 3) as [Hlt|Hge]; simpl.
  - destruct data as [|a l]; [congruence|].
    unfold filter_outliers. destruct (Nat.ltb_spec (length (a :: l)) 3); [reflexivity|lia].
  - destruct (np_std data =? 0) eqn:E.
    + destruct data as [|a l]; [congruence|]. unfold filter_outliers, np_array.
      destruct (Nat.ltb_spec (length (a :: l)) 3); [lia|]. cbv zeta. rewrite E. reflexivity.
    + rewrite filter_outliers_large by assumption. reflexivity.
Qed.

(** [filter_outliers] only removes: what it returns is a sublist of the
    data, so it holds no new element, repeats none and keeps the order. *)
Theorem filter_outliers_sublist (self : DataProcessor) (data : list float)
    (threshold : float) (r : list float) :
  outcome (filter_outliers self data threshold) = Return r -> sublist r data.
Proof.
  destruct data as [|a l]; [discriminate|].
  rewrite filter_outliers_outcome by discriminate.
  intros H. apply Return_inj in H. subst r.
  match goal with |- sublist (if ?c then _ else _) _ => destruct c end;
    [reflexivity | apply filter_sublist].
Qed.

(** A larger threshold keeps at least what a smaller one keeps. *)
Theorem filter_outliers_monotone (self : DataProcessor) (data : list float)
    (t1 t2 : float) (r1 r2 : list float) :
  (t1 <=? t2) = true ->
  outcome (filter_outliers self data t1) = Return r1 ->
  outcome (filter_outliers self data t2) = Return r2 ->
  sublist r1 r2.
Proof.
  intros Ht. destruct data as [|a l]; [discriminate|].
  rewrite !filter_outliers_outcome by discriminate.
  intros H1 H2. apply Return_inj in H1, H2. subst r1 r2.
  match goal with |- sublist (if ?c then _ else _) _ => destruct c end; [reflexivity|].
  apply filter_sublist_mono. intros x Hx. apply ltb_leb_trans with t1; assumption.
Qed.

(** ** NaN among the data *)

Lemma fold_add_nan_acc (l : list float) (a : float) :
  is_nan a = true -> is_nan (fold_left PrimFloat.add l a) = true.
Proof.
  revert a. induction l as [|x l IH]; intros a H; simpl; [exact H|].
  apply IH, add_nan. left. exact H.
Qed.

Lemma np_sum_nan (arr : list float) :
  Exists (fun x => is_nan x = true) arr -> is_nan (np_sum arr) = true.
Proof.
  unfold np_sum. generalize 0. induction arr as [|x arr IH]; intros a H; simpl.
  - inversion H.
  - inversion H as [? ? Hx|? ? Hx]; subst.
    + apply fold_add_nan_acc, add_nan. right. exact Hx.
    + apply IH, Hx.
Qed.

Lemma np_mean_nan (arr : list float) :
  Exists (fun x => is_nan x = true) arr -> np_mean arr = nan.
Proof.
  intros H. apply nan_unique. unfold np_mean. apply div_nan. left. apply np_sum_nan, H.
Qed.

Lemma np_std_nan (arr : list float) :
  Exists (fun x => is_nan x = true) arr -> np_std arr = nan.
Proof.
  intros H. apply nan_unique. unfold np_std. apply sqrt_nan.
  assert (Hsq : Exists (fun x => is_nan x = true)
                  (np_square (np_subtract arr (np_mean arr)))).
  { unfold np_square, np_subtract. rewrite map_map.
    apply List.Exists_exists in H. destruct H as (x & Hx & Hn).
    apply List.Exists_exists. exists ((x - np_mean arr) * (x - np_mean arr)). split.
    - apply in_map_iff. exists x. split; [reflexivity|exact Hx].
    - apply mul_nan. left. apply sub_nan. left. exact Hn. }
  rewrite (np_mean_nan _ Hsq). reflexivity.
Qed.

Lemma normalize_nan (arr : list float) :
  Exists (fun x => is_nan x = true) arr ->
  outcome (_normalize arr) = Return (repeat nan (length arr)).
Proof.
  intros H. destruct arr as [|a l]; [inversion H|].
  pose proof (np_min_is_minimum (a :: l) _ (np_min_returns a l)) as (_ & _ & Hmn).
  pose proof (np_max_is_maximum (a :: l) _ (np_max_returns a l)) as (_ & _ & Hmx).
  specialize (Hmn H). specialize (Hmx H).
  rewrite normalize_cons. cbv zeta.
  rewrite (nan_not_eqb _ _ Hmx). unfold outcome. cbn [fst]. f_equal.
  unfold np_subtract. rewrite map_map.
  rewrite <- (List.map_const nan (a :: l)).
  apply map_ext. intros x. apply nan_unique, div_nan. left. apply sub_nan. right. exact Hmn.
Qed.

Lemma requested_keeps_nan (operation : string) (arr r : list float) :
  Exists (fun x => is_nan x = true) arr ->
  outcome (requested operation arr) = Return r ->
  String.eqb operation "normalize" = false ->
  Exists (fun x => is_nan x = true) r.
Proof.
  intros H. unfold requested.
  repeat match goal with
         | |- context [String.eqb operation ?s] => destruct (String.eqb operation s)
         end;
    try discriminate; unfold outcome; cbn [fst mret traced_ret]; intros Hr _;
    apply Return_inj in Hr; subst r; try exact H.
  - unfold np_square. apply List.Exists_exists in H. destruct H as (x & Hx & Hn).
    apply List.Exists_exists. exists (x * x).
    split; [apply (in_map (fun x => x * x)), Hx|].
    apply mul_nan. left. exact Hn.
  - unfold np_sqrt, np_abs. rewrite map_map.
    apply List.Exists_exists in H. destruct H as (x & Hx & Hn).
    apply List.Exists_exists. exists (sqrt (abs x)).
    split; [apply (in_map (fun x => sqrt (abs x))), Hx|].
    apply sqrt_nan, abs_nan, Hn.
Qed.

(** One NaN among the data poisons every aggregate: the four statistics are
    NaN, the normalize transform (requested, or applied by the flag after a
    recognized operation) returns NaN at every position, and
    [filter_outliers] on three elements or more returns the empty list. *)
Theorem nan_poisons (self : DataProcessor) (data : list float)
    (operation : string) (threshold : float) :
  Exists (fun x => is_nan x = true) data ->
  statistics self data =
    Return (<["mean" := nan]> (<["std" := nan]> (<["min" := nan]> (<["max" := nan]> ∅)))) /\
  (In operation recognized -> normalize self = true \/ operation = "normalize" ->
   outcome (process self data operation) = Return (repeat nan (length data))) /\
  ((3 <= length data)%nat ->
   outcome (filter_outliers self data threshold) = Return []).
Proof.
  intros H.
  assert (Hne : data <> []) by (intros ->; inversion H).
  split; [|split].
  - destruct data as [|a l]; [congruence|].
    pose proof (np_min_is_minimum (a :: l) _ (np_min_returns a l)) as (_ & _ & Hmn).
    pose proof (np_max_is_maximum (a :: l) _ (np_max_returns a l)) as (_ & _ & Hmx).
    unfold statistics, np_array. rewrite np_min_returns, np_max_returns. simpl result_bind.
    rewrite (np_mean_nan _ H), (np_std_nan _ H).
    rewrite (nan_unique _ (Hmn H)), (nan_unique _ (Hmx H)). reflexivity.
  - intros Hop Hn. rewrite process_nonempty by exact Hne. rewrite outcome_bind.
    assert (Hcases : In operation elementwise \/ operation = "normalize").
    { unfold recognized, elementwise in *. simpl in *. intuition. }
    destruct Hcases as [Hel| ->].
    + destruct (requested_elementwise operation data Hel) as (Hnn & f & Hreq & _).
      pose proof (requested_keeps_nan operation data (map f data) H) as Hk.
      rewrite Hreq in *. unfold outcome at 1. cbn [fst].
      destruct Hn as [Hflag| ->]; [|discriminate].
      rewrite Hflag, Hnn. cbn [andb negb].
      rewrite <- (length_map f data). apply normalize_nan, Hk; [reflexivity | exact Hnn].
    + change (negb (String.eqb "normalize" "normalize")) with false.
      rewrite andb_false_r.
      replace (requested "normalize" data) with (_normalize data) by reflexivity.
      rewrite (normalize_nan data H). reflexivity.
  - intros Hlen. rewrite filter_outliers_outcome by exact Hne.
    destruct (Nat.ltb_spec (length data) 3) as [|_]; [lia|].
    rewrite (np_std_nan _ H). cbn [orb]. change (nan =? 0) with false. cbv iota.
    f_equal. apply filter_none. intros x. apply nan_not_ltb.
    unfold z_score. apply div_nan. right. rewrite (np_std_nan _ H). reflexivity.
Qed.

(** ** Constant data, exactly *)

(** The transform takes its all-zeros branch exactly when every element
    compares equal to the minimum: the maximum [==] the minimum if and only
    if the data is constant (up to the sign of zero), and without a NaN
    among the data the minimum is never above the maximum. *)
Theorem constant_iff_max_eq_min (data : list float) (mn mx : float) :
  np_min data = Return mn -> np_max data = Return mx ->
  ((mx =? mn) = true <-> Forall (fun x => (x =? mn) = true) data) /\
  (Forall (fun x => is_nan x = false) data -> (mn <=? mx) = true).
Proof.
  intros Hmn Hmx. split; [split|].
  - apply max_eq_min_constant; assumption.
  - intros Hall. destruct data as [|a l]; [discriminate|].
    rewrite np_min_returns in Hmn. rewrite np_max_returns in Hmx.
    apply Return_inj in Hmn, Hmx. subst mx.
    inversion Hall as [|? ? Ha Hl]; subst.
    apply fold_maximum_constant; assumption.
  - intros Hall.
    pose proof (np_min_is_minimum _ _ Hmn) as (_ & Hle & _).
    pose proof (np_max_is_maximum _ _ Hmx) as (Hin & _).
    specialize (Hle Hall). rewrite List.Forall_forall in Hle. apply Hle, Hin.
Qed.

(** ** Signs of the results *)

(** Nothing that [process] computes by ["square"] or ["sqrt"] without the
    flag is below zero, and neither is the standard deviation that
    [statistics] reports. *)
Theorem results_not_negative (self : DataProcessor) (data : list float) :
  (forall r, normalize self = false ->
     outcome (process self data "square") = Return r \/
     outcome (process self data "sqrt") = Return r ->
     Forall (fun y => (y <? 0) = false) r) /\
  (forall m s, statistics self data = Return m -> m !! "std" = Some s -> (s <? 0) = false).
Proof.
  split.
  - intros r Hflag Hr. destruct data as [|a l]; [destruct Hr; discriminate|].
    rewrite !process_nonempty in Hr by discriminate. rewrite Hflag in Hr.
    cbn [andb] in Hr. rewrite !bind_mret in Hr.
    destruct Hr as [Hr|Hr]; apply Return_inj in Hr; subst r; apply List.Forall_forall;
      intros y Hy.
    + unfold np_square in Hy. apply in_map_iff in Hy. destruct Hy as (x & <- & _).
      apply square_not_negative.
    + unfold np_sqrt in Hy. apply in_map_iff in Hy. destruct Hy as (x & <- & _).
      apply sqrt_not_negative.
  - intros m s Hm Hs. destruct data as [|a l]; [discriminate|].
    unfold statistics, np_array in Hm. rewrite np_min_returns, np_max_returns in Hm.
    cbn [result_bind] in Hm.
    apply Return_inj in Hm. subst m. simplify_map_eq.
    unfold np_std. apply sqrt_not_negative.
Qed.

(** ** The ends of the normalized range *)

(** When the maximum and the minimum differ and their difference is finite,
    the transform divides once, by that difference, and sends every element
    that compares equal to the minimum to a zero and every element that
    compares equal to the maximum to exactly one; both values occur in the
    result. *)
Theorem normalize_endpoints (self : DataProcessor) (data : list float) (mn mx : float) :
  np_min data = Return mn -> np_max data = Return mx ->
  (mx =? mn) = false -> is_finite (mx - mn) = true ->
  let f := fun x => (x - mn) / (mx - mn) in
  process self data "normalize" = (Return (map f data), [mx - mn]) /\
  (forall x, (x =? mn) = true -> (f x =? 0) = true) /\
  (forall x, (x =? mx) = true -> f x = 1) /\
  In 1 (map f data) /\ Exists (fun y => (y =? 0) = true) (map f data).
Proof.
  intros Hmn Hmx Hne Hfin f.
  destruct data as [|a l]; [discriminate|].
  pose proof (np_min_is_minimum _ _ Hmn) as (Hmn_in & _).
  pose proof (np_max_is_maximum _ _ Hmx) as (Hmx_in & _).
  rewrite np_min_returns in Hmn. rewrite np_max_returns in Hmx.
  apply Return_inj in Hmn, Hmx.
  destruct (sub_finite _ _ Hfin) as [Hfx Hfn].
  assert (Hd : (mx - mn =? 0) = false) by (apply sub_not_zero, Hne).
  assert (H0 : forall x, (x =? mn) = true -> (f x =? 0) = true).
  { intros x Hx. unfold f. apply zero_div; try assumption. apply sub_eqb_zero; assumption. }
  assert (H1 : forall x, (x =? mx) = true -> f x = 1).
  { intros x Hx. unfold f. rewrite (sub_eqb_compat x mx mn Hx Hne Hfin).
    apply div_self; assumption. }
  split; [|split; [exact H0|split; [exact H1|split]]].
  - rewrite process_nonempty by discriminate.
    change (negb (String.eqb "normalize" "normalize")) with false.
    rewrite andb_false_r.
    replace (requested "normalize" (a :: l)) with (_normalize (a :: l)) by reflexivity.
    rewrite bind_mret, normalize_cons. cbv zeta. rewrite Hmn, Hmx, Hne.
    unfold np_subtract. rewrite map_map. reflexivity.
  - rewrite <- (H1 mx) by (apply eqb_refl, is_finite_not_nan, Hfx).
    apply (in_map f), Hmx_in.
  - apply List.Exists_exists. exists (f mn). split; [apply (in_map f), Hmn_in|].
    apply H0, eqb_refl, is_finite_not_nan, Hfn.
Qed.

End DataProcessorMore.

(* ===================================================================== *)
(** * More properties of the calculator *)
(* ===================================================================== *)

Module CalculatorMore.
Import PyNum Calculator CallKinds FloatFacts CalculatorSpec.

Local Open Scope float_scope.
Local Open Scope list_scope.

Lemma to_float_raises (a : Number) (e : exception) :
  to_float a = Raise e -> is_int a = true /\ exists msg, e = OverflowError msg.
Proof.
  destruct a as [z|f]; simpl; [|discriminate].
  intros H. split; [reflexivity|]. apply (float_of_int_overflow z), H.
Qed.




(** A [clear_history] forgets everything before it: the history after a
    sequence of calls is the history that the calls after the last clear
    build on a fresh calculator. *)
Theorem clear_forgets (before after : list call) (self : Calculator) :
  history (run (before ++ ClearHistory :: after) self) = history (run after init).
Proof.
  unfold run. rewrite fold_left_app. simpl.
  replace (step (fold_left step before self) ClearHistory) with init; reflexivity.
Qed.

(** Without a [clear_history] the history only grows: after any sequence
    of other calls the old history is a prefix of the new one, extended by
    one line per successful arithmetic call. *)
Theorem history_grows (calls : list call) (self : Calculator) :
  Forall (fun c => c <> ClearHistory) calls ->
  exists lines,
    history (run calls self) = history self ++ lines /\
    length lines = length (List.filter successful calls).
Proof.
  revert self. induction calls as [|c calls IH]; intros self H.
  - exists []. rewrite app_nil_r. split; reflexivity.
  - inversion H as [|? ? Hc Hrest]; subst.
    destruct (IH (step self c) Hrest) as (lines & Hl & Hn).
    simpl. rewrite Hl, step_history, (successful_recorded c self).
    destruct c; try congruence;
      (destruct (recorded _ self) as [l|];
       [exists (l :: lines); rewrite <- app_assoc; simpl; split; [reflexivity|lia]
       | exists lines; split; [reflexivity|assumption]]).
Qed.

End CalculatorMore.

(* ===================================================================== *)
(** * The calculator's list objects *)
(* ===================================================================== *)

Module ObjectFacts.
Import PyNum CalculatorObjects CalculatorSpec.

Local Open Scope list_scope.

Lemma contents_insert (r : ref) (l : list string) (s : store) :
  contents r (<[r := l]> s) = l.
Proof. unfold contents. rewrite lookup_insert_eq. reflexivity. Qed.

Lemma contents_insert_ne (r r' : ref) (l : list string) (s : store) :
  r <> r' -> contents r' (<[r := l]> s) = contents r' s.
Proof. intros H. unfold contents. rewrite lookup_insert_ne by exact H. reflexivity. Qed.

Lemma contents_alter (g : list string -> list string) (r : ref) (s : store) :
  r ∈ dom s -> contents r (alter g r s) = g (contents r s).
Proof.
  intros H. apply elem_of_dom in H. destruct H as [l Hl].
  unfold contents. rewrite lookup_alter_eq, Hl. reflexivity.
Qed.

Lemma contents_alter_ne (g : list string -> list string) (r r' : ref) (s : store) :
  r <> r' -> contents r' (alter g r s) = contents r' s.
Proof. intros H. unfold contents. rewrite lookup_alter_ne by exact H. reflexivity. Qed.

Lemma dom_alter_store (g : list string -> list string) (r : ref) (s : store) :
  dom (alter g r s) = dom s.
Proof. apply dom_alter_L. Qed.

Lemma fresh_not_in (s : store) : fresh (dom s) ∉ dom s.
Proof. apply is_fresh. Qed.

Ltac run_action :=
  unfold mbind, action_bind, mret, action_ret, eval, raise, list_append, list_copy,
    list_clear, list_new; simpl.

(** The line an arithmetic call records. *)
Lemma recorded_cases (c : Calculator.call) (self : Calculator.Calculator) :
  Calculator.recorded c self =
  match c with
  | Calculator.Add a b =>
      match py_add a b with
      | Return r => Some (Calculator.entry "+" a b r)
      | Raise _ => None
      end
  | Calculator.Subtract a b =>
      match py_sub a b with
      | Return r => Some (Calculator.entry "-" a b r)
      | Raise _ => None
      end
  | Calculator.Multiply a b =>
      match py_mul a b with
      | Return r => Some (Calculator.entry "*" a b r)
      | Raise _ => None
      end
  | Calculator.Divide a b =>
      if py_eq_zero b then None
      else match py_truediv a b with
           | Return q => Some (Calculator.entry "/" a b (PyFloat q))
           | Raise _ => None
           end
  | _ => None
  end.
Proof.
  unfold Calculator.recorded, Calculator.invoke.
  destruct c as [a b|a b|a b|a b| |]; unfold mbind, Calculator.method_bind;
    rewrite ?add_run, ?subtract_run, ?multiply_run, ?divide_run; try reflexivity.
  - destruct (py_add a b); reflexivity.
  - destruct (py_sub a b); reflexivity.
  - destruct (py_mul a b); reflexivity.
  - destruct (py_eq_zero b); [reflexivity|]. destruct (py_truediv a b); reflexivity.
Qed.

(** What a call does to the store. *)
Lemma invoke_store (self : Calculator) (c : Calculator.call) (s : store) :
  invoke self c s =
  match c with
  | Calculator.ClearHistory => alter (fun _ => []) (history self) s
  | Calculator.GetHistory => <[fresh (dom s) := contents (history self) s]> s
  | _ => match Calculator.recorded c Calculator.init with
         | Some l => alter (fun h => h ++ [l]) (history self) s
         | None => s
         end
  end.
Proof.
  rewrite recorded_cases.
  unfold invoke, add, subtract, multiply, divide, get_history, clear_history.
  destruct c as [a b|a b|a b|a b| |]; try reflexivity; run_action.
  - destruct (py_add a b); reflexivity.
  - destruct (py_sub a b); reflexivity.
  - destruct (py_mul a b); reflexivity.
  - destruct (py_eq_zero b); [reflexivity|]. run_action.
    destruct (py_truediv a b); reflexivity.
Qed.

(** A call keeps the objects that exist. *)
Lemma invoke_dom (self : Calculator) (c : Calculator.call) (s : store) :
  dom s ⊆ dom (invoke self c s).
Proof.
  rewrite invoke_store. destruct c; try destruct (Calculator.recorded _ _);
    rewrite ?dom_alter_L, ?dom_insert_L; set_solver.
Qed.

(** A call leaves every existing object but the history as it is. *)
Lemma invoke_frame (self : Calculator) (c : Calculator.call) (s : store) (r : ref) :
  r ∈ dom s -> r <> history self -> contents r (invoke self c s) = contents r s.
Proof.
  intros Hr Hne. rewrite invoke_store.
  destruct c; try destruct (Calculator.recorded _ _);
    rewrite ?contents_alter_ne by congruence; try reflexivity.
  apply contents_insert_ne. intros E. rewrite <- E in Hr. exact (fresh_not_in s Hr).
Qed.

(** On the history, a call does what the method on values does. *)
Lemma invoke_history (self : Calculator) (c : Calculator.call) (s : store) :
  history self ∈ dom s ->
  contents (history self) (invoke self c s) =
  Calculator.history
    (Calculator.step {| Calculator.history := contents (history self) s |} c).
Proof.
  intros H. rewrite invoke_store, step_history.
  rewrite (recorded_independent c {| Calculator.history := contents (history self) s |}
             Calculator.init).
  destruct c as [a b|a b|a b|a b| |];
    try (destruct (Calculator.recorded _ Calculator.init);
         rewrite ?contents_alter by exact H; reflexivity).
  - rewrite (recorded_cases Calculator.GetHistory). simpl.
    apply contents_insert_ne. intros E. rewrite <- E in H. exact (fresh_not_in s H).
  - rewrite contents_alter by exact H. reflexivity.
Qed.

Lemma run_dom (self : Calculator) (calls : list Calculator.call) (s : store) :
  dom s ⊆ dom (run self calls s).
Proof.
  revert s. induction calls as [|c calls IH]; intros s; simpl; [set_solver|].
  pose proof (invoke_dom self c s). pose proof (IH (invoke self c s)). set_solver.
Qed.

Lemma run_frame (self : Calculator) (calls : list Calculator.call) (s : store) (r : ref) :
  r ∈ dom s -> r <> history self -> contents r (run self calls s) = contents r s.
Proof.
  revert s. induction calls as [|c calls IH]; intros s Hr Hne; simpl; [reflexivity|].
  rewrite IH; [apply invoke_frame; assumption | apply (invoke_dom self c s), Hr | exact Hne].
Qed.

(** The history object holds what the calculator on values holds. *)
Theorem run_history_object (self : Calculator) (calls : list Calculator.call) (s : store) :
  history self ∈ dom s ->
  contents (history self) (run self calls s) =
  Calculator.history
    (Calculator.run calls {| Calculator.history := contents (history self) s |}).
Proof.
  revert s. induction calls as [|c calls IH]; intros s H; simpl; [reflexivity|].
  rewrite IH by (apply (invoke_dom self c s), H).
  rewrite invoke_history by exact H.
  destruct (Calculator.step _ c) as [h]. reflexivity.
Qed.

(** [get_history] hands out a new list object: it did not exist before, it
    holds the lines of the history, every object that existed (the history
    among them) is left as it was, and whatever the caller then does to the
    object it received, the history stays the same. *)
Theorem get_history_is_a_copy (self : Calculator) (s : store) :
  history self ∈ dom s ->
  exists r s',
    get_history self s = (Return r, s') /\
    (r ∉ dom s) /\
    contents r s' = contents (history self) s /\
    (forall r0, r0 ∈ dom s -> contents r0 s' = contents r0 s) /\
    (forall g : list string -> list string,
        contents (history self) (alter g r s') = contents (history self) s).
Proof.
  intros H. exists (fresh (dom s)), (<[fresh (dom s) := contents (history self) s]> s).
  assert (Hne : forall r0, r0 ∈ dom s -> fresh (dom s) <> r0)
    by (intros r0 Hr E; rewrite <- E in Hr; exact (fresh_not_in s Hr)).
  split; [reflexivity|]. split; [apply fresh_not_in|].
  split; [apply contents_insert|]. split.
  - intros r0 Hr. apply contents_insert_ne, Hne, Hr.
  - intros g. rewrite contents_alter_ne by (apply Hne, H).
    apply contents_insert_ne, Hne, H.
Qed.

(** The list [get_history] returned is a snapshot: no later call on the
    calculator changes it. *)
Theorem get_history_snapshot (self : Calculator) (s s' : store) (r : ref)
    (calls : list Calculator.call) :
  history self ∈ dom s -> get_history self s = (Return r, s') ->
  contents r (run self calls s') = contents (history self) s.
Proof.
  intros H Hg. unfold get_history, list_copy, list_new in Hg.
  injection Hg as <- <-.
  assert (Hne : fresh (dom s) <> history self)
    by (intros E; rewrite <- E in H; exact (fresh_not_in s H)).
  rewrite run_frame; [apply contents_insert | | exact Hne].
  rewrite dom_insert_L. set_solver.
Qed.

(** Two calculators built one after the other have different history
    objects, and calls on one never change the history of the other. *)
Theorem instances_do_not_share (s s1 s2 : store) (c1 c2 : Calculator)
    (calls : list Calculator.call) :
  init s = (Return c1, s1) -> init s1 = (Return c2, s2) ->
  history c1 <> history c2 /\
  contents (history c1) s2 = [] /\ contents (history c2) s2 = [] /\
  contents (history c2) (run c1 calls s2) = [] /\
  contents (history c1) (run c2 calls s2) = [].
Proof.
  unfold init. run_action. intros [= <- <-] [= <- <-]. simpl.
  set (r1 := fresh (dom s)).
  set (r2 := fresh (dom (<[r1 := []]> s))).
  assert (Hin : r1 ∈ dom (<[r1 := []]> s)) by (rewrite dom_insert_L; set_solver).
  assert (Hne : r1 <> r2).
  { intros E. apply (fresh_not_in (<[r1 := []]> s)). fold r2. rewrite <- E. exact Hin. }
  clear Hin.
  assert (E1 : contents r1 (<[r2 := []]> (<[r1 := []]> s)) = []).
  { rewrite contents_insert_ne by congruence. apply contents_insert. }
  assert (E2 : contents r2 (<[r2 := []]> (<[r1 := []]> s)) = []) by apply contents_insert.
  repeat split; try assumption.
  - rewrite run_frame; [exact E2 | rewrite dom_insert_L; set_solver | simpl; congruence].
  - rewrite run_frame; [exact E1 | rewrite !dom_insert_L; set_solver | simpl; congruence].
Qed.

End ObjectFacts.

(* ===================================================================== *)
(** * The further theorems at concrete inputs *)
(* ===================================================================== *)

Module MoreExamples.
Import PyNum Numpy DataProcessor DataProcessorMore CalculatorMore.

Local Open Scope float_scope.
Local Open Scope list_scope.

(** [DataProcessor(normalize=True).process([10, 20, 30], "square")] has
    three elements. *)
Lemma process_length_witness :
  outcome (process (init true) [10; 20; 30] "square") = Return [0; 0.375; 1] /\
  length [0; 0.375; 1] = length [10; 20; 30].
Proof.
  assert (H : outcome (process (init true) [10; 20; 30] "square") = Return [0; 0.375; 1])
    by (vm_compute; reflexivity).
  split; [exact H|]. exact (process_length _ _ _ _ H).
Defined.

(** [filter_outliers([1, 2, 3, 4, 5, 100])] is a sublist of its input. *)
Lemma filter_outliers_sublist_witness :
  sublist [1; 2; 3; 4; 5] [1; 2; 3; 4; 5; 100].
Proof.
  apply (filter_outliers_sublist default [1; 2; 3; 4; 5; 100] 2).
  vm_compute. reflexivity.
Defined.

(** Thresholds [0.4375] and [2] on the same data. *)
Lemma filter_outliers_monotone_witness :
  outcome (filter_outliers default [1; 2; 3; 4; 5; 100] 0.4375) = Return [4; 5] /\
  outcome (filter_outliers default [1; 2; 3; 4; 5; 100] 2) = Return [1; 2; 3; 4; 5] /\
  sublist [4; 5] [1; 2; 3; 4; 5].
Proof.
  assert (H1 : outcome (filter_outliers default [1; 2; 3; 4; 5; 100] 0.4375) = Return [4; 5])
    by (vm_compute; reflexivity).
  assert (H2 : outcome (filter_outliers default [1; 2; 3; 4; 5; 100] 2)
               = Return [1; 2; 3; 4; 5])
    by (vm_compute; reflexivity).
  split; [exact H1|]. split; [exact H2|].
  exact (filter_outliers_monotone default _ 0.4375 2 _ _ eq_refl H1 H2).
Defined.

(** [statistics([1, nan, 3])] and [filter_outliers([1, nan, 3])]. *)
Lemma nan_poisons_witness :
  statistics default [1; nan; 3] =
    Return (<["mean" := nan]> (<["std" := nan]> (<["min" := nan]> (<["max" := nan]> ∅)))) /\
  outcome (process default [1; nan; 3] "normalize") = Return [nan; nan; nan] /\
  outcome (filter_outliers default [1; nan; 3] 2) = Return [].
Proof.
  assert (H : Exists (fun x => is_nan x = true) [1; nan; 3])
    by (apply Exists_cons_tl, Exists_cons_hd; reflexivity).
  destruct (nan_poisons default [1; nan; 3] "normalize" 2 H) as (H1 & H2 & H3).
  split; [exact H1|]. split.
  - apply H2; [unfold recognized; simpl; auto 6 | right; reflexivity].
  - apply H3. simpl. lia.
Defined.

(** [process([0, 5, 10], "normalize")] reaches both ends. *)
Lemma normalize_endpoints_witness :
  process default [0; 5; 10] "normalize" = (Return [0; 0.5; 1], [10]) /\
  In 1 [0; 0.5; 1].
Proof.
  destruct (normalize_endpoints default [0; 5; 10] 0 10 eq_refl eq_refl eq_refl eq_refl)
    as (H1 & _ & _ & H2 & _).
  split; [exact H1 | exact H2].
Defined.

(** [data = [5, 5, 5]] is constant. *)
Lemma constant_iff_max_eq_min_witness :
  Forall (fun x => (x =? 5) = true) [5; 5; 5].
Proof.
  apply (constant_iff_max_eq_min [5; 5; 5] 5 5 eq_refl eq_refl). reflexivity.
Defined.

(** A history that already holds a line, then four calls without a clear. *)
Lemma history_grows_witness :
  exists lines,
    Calculator.history
      (Calculator.run [Calculator.Add (PyInt 2) (PyInt 3);
                       Calculator.Divide (PyInt 1) (PyInt 0);
                       Calculator.GetHistory;
                       Calculator.Multiply (PyInt 4) (PyInt 5)]
         {| Calculator.history := ["1 + 1 = 2"] |})
    = ["1 + 1 = 2"] ++ lines /\
    length lines = 2%nat.
Proof.
  destruct (history_grows [Calculator.Add (PyInt 2) (PyInt 3);
                           Calculator.Divide (PyInt 1) (PyInt 0);
                           Calculator.GetHistory;
                           Calculator.Multiply (PyInt 4) (PyInt 5)]
              {| Calculator.history := ["1 + 1 = 2"] |}) as (lines & H1 & H2).
  - repeat constructor; discriminate.
  - exists lines. split; [exact H1|]. rewrite H2. vm_compute. reflexivity.
Defined.

(** A calculator whose history object holds one line. *)
Lemma get_history_is_a_copy_witness :
  exists r s',
    CalculatorObjects.get_history {| CalculatorObjects.history := 0%nat |}
      {[0%nat := ["2 + 3 = 5"]]} = (Return r, s') /\
    CalculatorObjects.contents r s' = ["2 + 3 = 5"] /\
    CalculatorObjects.contents 0%nat
      (alter (fun l => l ++ ["tampered"]) r s') = ["2 + 3 = 5"].
Proof.
  destruct (ObjectFacts.get_history_is_a_copy {| CalculatorObjects.history := 0%nat |}
              {[0%nat := ["2 + 3 = 5"]]}) as (r & s' & H1 & _ & H2 & _ & H3).
  - rewrite dom_singleton_L. set_solver.
  - exists r, s'. split; [exact H1|]. split; [exact H2|]. apply H3.
Defined.

(** The list handed out before an addition and a clear still holds the
    one line. *)
Lemma get_history_snapshot_witness :
  exists r s',
    CalculatorObjects.get_history {| CalculatorObjects.history := 0%nat |}
      {[0%nat := ["2 + 3 = 5"]]} = (Return r, s') /\
    CalculatorObjects.contents r
      (CalculatorObjects.run {| CalculatorObjects.history := 0%nat |}
         [Calculator.Add (PyInt 1) (PyInt 1); Calculator.ClearHistory] s')
    = ["2 + 3 = 5"].
Proof.
  assert (H : 0%nat ∈ dom ({[0%nat := ["2 + 3 = 5"]]} : gmap nat (list string)))
    by (rewrite dom_singleton_L; set_solver).
  eexists _, _. split; [reflexivity|].
  rewrite (ObjectFacts.get_history_snapshot {| CalculatorObjects.history := 0%nat |}
             {[0%nat := ["2 + 3 = 5"]]} _ _ _ H eq_refl).
  reflexivity.
Defined.

(** Two calculators built in an empty store. *)
Lemma instances_do_not_share_witness :
  exists c1 s1 c2 s2,
    CalculatorObjects.init ∅ = (Return c1, s1) /\
    CalculatorObjects.init s1 = (Return c2, s2) /\
    CalculatorObjects.history c1 <> CalculatorObjects.history c2 /\
    CalculatorObjects.contents (CalculatorObjects.history c2)
      (CalculatorObjects.run c1 [Calculator.Add (PyInt 2) (PyInt 3)] s2) = [].
Proof.
  eexists _, _, _, _. split; [reflexivity|]. split; [reflexivity|].
  destruct (ObjectFacts.instances_do_not_share ∅ _ _ _ _
              [Calculator.Add (PyInt 2) (PyInt 3)] eq_refl eq_refl)
    as (H1 & _ & _ & H2 & _).
  split; [exact H1 | exact H2].
Defined.

End MoreExamples.
